(** * The Plate Recognizer image-processing entity

    A shallow embedding of
    [custom_components/platerecognizer/image_processing.py]: the class
    [PlateRecognizerEntity] with its constructor, [process_image],
    [get_statistics], [fire_vehicle_detected_event], [save_image] and the
    read-only properties, and [setup_platform], which builds one entity per
    configured camera.

    The methods are written in a state-and-exception monad over a machine
    that holds the object's fields, the heap of vehicle records (Python
    dicts are objects: [dict.copy] allocates, [dict.update] mutates in
    place), the files on disk and the trace of every call that leaves the
    process (HTTP requests, bus events, image decoding, file writes, log
    records).  What the outside world answers is an explicit [Env]. *)

From Stdlib Require Import ZArith String Ascii List Lia.
From Stdlib Require Import Floats.SpecFloat.
From stdpp Require Import base option list strings gmap.

Set Warnings "-register-all".

(** ** Python values *)

(** The values that [Response.json()] can produce.  Integers are unbounded,
    floats are IEEE binary64, a JSON object is a [dict] with string keys. *)
Inductive pyval : Type :=
  | PNone
  | PBool (b : bool)
  | PInt (z : Z)
  | PFloat (f : spec_float)
  | PStr (s : string)
  | PList (l : list pyval)
  | PDict (d : gmap string pyval).

Abbreviation dict := (gmap string pyval).
Abbreviation bytes := (list Byte.byte).

(** The exception classes the code can meet; all derive from [Exception]. *)
Inductive Exn : Type :=
  | KeyError (key : string)
  | TypeError
  | AttributeError
  | OverflowError
  | ValueError
  | ConnectionError
  | UnidentifiedImageError
  | OSError
  | ReferenceError.

(** The result of evaluating a Python expression or statement. *)
Inductive Outcome (A : Type) : Type :=
  | Return (a : A)
  | Raise (e : Exn).
Arguments Return {A} a.
Arguments Raise {A} e.

(** [v[k]] for a string key [k]: only a dict can be subscripted by a
    string; lists and strings want integer indices, the other values are
    not subscriptable at all. *)
Definition getitem (v : pyval) (k : string) : Outcome pyval :=
  match v with
  | PDict d =>
      match d !! k with
      | Some x => Return x
      | None => Raise (KeyError k)
      end
  | _ => Raise TypeError
  end.

(** [for r in v]: the elements of a list, the keys of a dict, the
    characters of a string; nothing else is iterable. *)
Definition iter (v : pyval) : Outcome (list pyval) :=
  match v with
  | PList l => Return l
  | PDict d => Return (PStr <$> (map_to_list d).*1)
  | PStr s => Return ((λ c, PStr (String c EmptyString)) <$> list_ascii_of_string s)
  | _ => Raise TypeError
  end.

Definition prec : Z := 53.
Definition emax : Z := 1024.

(** [float(z)] as the subtraction of an int and a float does it:
    round to nearest even, [OverflowError] when out of range. *)
Definition float_of_int (z : Z) : Outcome spec_float :=
  match binary_normalize prec emax z 0 false with
  | S754_infinity _ => Raise OverflowError
  | f => Return f
  end.

Inductive number : Type :=
  | NInt (z : Z)
  | NFloat (f : spec_float).

Definition as_number (v : pyval) : option number :=
  match v with
  | PBool b => Some (NInt (Z.b2z b))
  | PInt z => Some (NInt z)
  | PFloat f => Some (NFloat f)
  | _ => None
  end.

(** [a - b]: defined on numbers (a bool is an int), [TypeError] otherwise. *)
Definition py_sub (a b : pyval) : Outcome pyval :=
  match as_number a, as_number b with
  | Some (NInt x), Some (NInt y) => Return (PInt (x - y))
  | Some (NInt x), Some (NFloat g) =>
      match float_of_int x with
      | Return f => Return (PFloat (SFsub prec emax f g))
      | Raise e => Raise e
      end
  | Some (NFloat f), Some (NInt y) =>
      match float_of_int y with
      | Return g => Return (PFloat (SFsub prec emax f g))
      | Raise e => Raise e
      end
  | Some (NFloat f), Some (NFloat g) => Return (PFloat (SFsub prec emax f g))
  | _, _ => Raise TypeError
  end.

(** [str(x)] inside an f-string, for a field that is [None] or a string. *)
Definition py_str (x : option string) : string :=
  match x with
  | Some s => s
  | None => "None"
  end.

(** Truth value of a field that is [None] or a string. *)
Definition truthy (x : option string) : bool :=
  match x with
  | Some (String _ _) => true
  | _ => false
  end.

(** ** Time stamps *)

Record datetime : Type := {
  year : nat; month : nat; day : nat;
  hour : nat; minute : nat; second : nat
}.

Definition digit (n : nat) : ascii := ascii_of_nat (48 + n mod 10).

(** Decimal digits of [n], zero-padded to [width] places. *)
Fixpoint zero_padded (width n : nat) : string :=
  match width with
  | 0 => EmptyString
  | S w => zero_padded w (n / 10) +:+ String (digit n) EmptyString
  end.

(** The directives of [strftime] that [DATETIME_FORMAT] uses.  A year of
    [datetime] has four digits from 1000 on, which is where platforms
    agree about [%Y]. *)
Definition directive (c : ascii) (d : datetime) : string :=
  match c with
  | "Y"%char => zero_padded 4 (year d)
  | "m"%char => zero_padded 2 (month d)
  | "d"%char => zero_padded 2 (day d)
  | "H"%char => zero_padded 2 (hour d)
  | "M"%char => zero_padded 2 (minute d)
  | "S"%char => zero_padded 2 (second d)
  | "%"%char => "%"
  | _ => String "%" (String c EmptyString)
  end.

Fixpoint strftime (fmt : string) (d : datetime) : string :=
  match fmt with
  | EmptyString => EmptyString
  | String "%" (String c rest) => directive c d +:+ strftime rest d
  | String c rest => String c (strftime rest d)
  end.

Arguments strftime : simpl never.

Definition is_digit (c : ascii) : bool :=
  (48 <=? nat_of_ascii c) && (nat_of_ascii c <=? 57).

(** Recogniser of the shape [YYYY-MM-DD_HH-MM-SS]. *)
Definition is_timestamp (s : string) : bool :=
  match list_ascii_of_string s with
  | [y1; y2; y3; y4; s1; m1; m2; s2; d1; d2; s3; h1; h2; s4; n1; n2; s5; c1; c2] =>
      forallb is_digit [y1; y2; y3; y4; m1; m2; d1; d2; h1; h2; n1; n2; c1; c2]
      && Ascii.eqb s1 "-" && Ascii.eqb s2 "-" && Ascii.eqb s3 "_"
      && Ascii.eqb s4 "-" && Ascii.eqb s5 "-"
  | _ => false
  end.

(** ** Module constants *)

Definition PLATE_READER_URL : string := "https://api.platerecognizer.com/v1/plate-reader/".
Definition STATS_URL : string := "https://api.platerecognizer.com/v1/statistics/".
Definition EVENT_VEHICLE_DETECTED : string := "platerecognizer.vehicle_detected".
Definition ATTR_PLATE : string := "plate".
Definition ATTR_CONFIDENCE : string := "confidence".
Definition ATTR_REGION_CODE : string := "region_code".
Definition ATTR_VEHICLE_TYPE : string := "vehicle_type".
Definition CONF_SAVE_FILE_FOLDER : string := "save_file_folder".
Definition CONF_SAVE_TIMESTAMPTED_FILE : string := "save_timestamped_file".
Definition CONF_ALWAYS_SAVE_LATEST_JPG : string := "always_save_latest_jpg".
Definition DATETIME_FORMAT : string := "%Y-%m-%d_%H-%M-%S".

(** Modelled from the spec: the constant [ATTR_ENTITY_ID] is imported from
    [homeassistant.const], which is not part of the sources; it is the key
    under which the event payload carries the entity's identifier. *)
Definition ATTR_ENTITY_ID : string := "entity_id".

(** Modelled from the spec: a camera reference is an entity identifier
    [<domain>.<object_id>], checked by the host's configuration schema, and
    [split_entity_id] (of [homeassistant.core], not part of the sources)
    returns its two halves; the spec calls the second one the camera name. *)
Record EntityId : Type := { domain : string; object_id : string }.

Definition split_entity_id (e : EntityId) : string * string :=
  (domain e, object_id e).

(** ** The machine *)

(** A decoded picture, as [Image.open(...).convert("RGB")] returns it. *)
Record Image : Type := {
  width : nat;
  height : nat;
  pixels : list (nat * nat * nat)
}.

Definition loc := nat.

Inductive Level : Type := ERROR | WARNING | INFO.

Inductive LogArg : Type :=
  | ArgExn (e : Exn)
  | ArgPath (p : string)
  | ArgNone.

(** Every call that leaves the process, in the order it is made. *)
Inductive Effect : Type :=
  | EPost (url : string) (upload : bytes) (headers : gmap string string)
  | EGet (url : string) (headers : gmap string string)
  | EFire (event_type : string) (event_data : loc)
  | EOpen (data : bytes)
  | ESave (path : string) (img : Image)
  | ELog (level : Level) (msg : string) (arg : LogArg).

(** What the outside world answers during one call of a method. *)
Record Env : Type := {
  (** [requests.post(url, files={"upload": image}, headers=h).json()] *)
  requests_post_json : string -> bytes -> gmap string string -> Outcome pyval;
  (** [requests.get(url, headers=h).json()] *)
  requests_get_json : string -> gmap string string -> Outcome pyval;
  (** [dt_util.now()] *)
  dt_now : datetime;
  (** [Image.open(io.BytesIO(bytearray(image))).convert("RGB")] *)
  Image_open : bytes -> Outcome Image;
  (** [img.save(path)]: the exception it raises, if any *)
  Image_save : Image -> string -> option Exn
}.

(** The fields of a [PlateRecognizerEntity]; [entity_id] is the attribute
    that the host platform sets when it registers the entity. *)
Record PlateRecognizerEntity : Type := {
  _headers : gmap string string;
  _camera : EntityId;
  _name : string;
  _save_file_folder : option string;
  _save_timestamped_file : bool;
  _always_save_latest_jpg : bool;
  _state : option Z;
  _results : pyval;
  _vehicles : list loc;
  _statistics : dict;
  _last_detection : option string;
  entity_id : option string
}.

Record Machine : Type := {
  self : PlateRecognizerEntity;
  heap : list dict;
  files : gmap string Image;
  trace : list Effect
}.

Definition with_self (f : PlateRecognizerEntity -> PlateRecognizerEntity)
    (m : Machine) : Machine :=
  {| self := f (self m); heap := heap m; files := files m; trace := trace m |}.

Definition with_heap (f : list dict -> list dict) (m : Machine) : Machine :=
  {| self := self m; heap := f (heap m); files := files m; trace := trace m |}.

Definition with_files (f : gmap string Image -> gmap string Image)
    (m : Machine) : Machine :=
  {| self := self m; heap := heap m; files := f (files m); trace := trace m |}.

Definition with_trace (f : list Effect -> list Effect) (m : Machine) : Machine :=
  {| self := self m; heap := heap m; files := files m; trace := f (trace m) |}.

Definition set_state (v : option Z) (e : PlateRecognizerEntity) :
    PlateRecognizerEntity :=
  {| _headers := _headers e; _camera := _camera e; _name := _name e;
     _save_file_folder := _save_file_folder e;
     _save_timestamped_file := _save_timestamped_file e;
     _always_save_latest_jpg := _always_save_latest_jpg e;
     _state := v; _results := _results e; _vehicles := _vehicles e;
     _statistics := _statistics e; _last_detection := _last_detection e;
     entity_id := entity_id e |}.

Definition set_results (v : pyval) (e : PlateRecognizerEntity) :
    PlateRecognizerEntity :=
  {| _headers := _headers e; _camera := _camera e; _name := _name e;
     _save_file_folder := _save_file_folder e;
     _save_timestamped_file := _save_timestamped_file e;
     _always_save_latest_jpg := _always_save_latest_jpg e;
     _state := _state e; _results := v; _vehicles := _vehicles e;
     _statistics := _statistics e; _last_detection := _last_detection e;
     entity_id := entity_id e |}.

Definition set_vehicles (v : list loc) (e : PlateRecognizerEntity) :
    PlateRecognizerEntity :=
  {| _headers := _headers e; _camera := _camera e; _name := _name e;
     _save_file_folder := _save_file_folder e;
     _save_timestamped_file := _save_timestamped_file e;
     _always_save_latest_jpg := _always_save_latest_jpg e;
     _state := _state e; _results := _results e; _vehicles := v;
     _statistics := _statistics e; _last_detection := _last_detection e;
     entity_id := entity_id e |}.

Definition set_statistics (v : dict) (e : PlateRecognizerEntity) :
    PlateRecognizerEntity :=
  {| _headers := _headers e; _camera := _camera e; _name := _name e;
     _save_file_folder := _save_file_folder e;
     _save_timestamped_file := _save_timestamped_file e;
     _always_save_latest_jpg := _always_save_latest_jpg e;
     _state := _state e; _results := _results e; _vehicles := _vehicles e;
     _statistics := v; _last_detection := _last_detection e;
     entity_id := entity_id e |}.

Definition set_last_detection (v : option string) (e : PlateRecognizerEntity) :
    PlateRecognizerEntity :=
  {| _headers := _headers e; _camera := _camera e; _name := _name e;
     _save_file_folder := _save_file_folder e;
     _save_timestamped_file := _save_timestamped_file e;
     _always_save_latest_jpg := _always_save_latest_jpg e;
     _state := _state e; _results := _results e; _vehicles := _vehicles e;
     _statistics := _statistics e; _last_detection := v;
     entity_id := entity_id e |}.

(** An object before [__init__] has run. *)
Definition blank_entity : PlateRecognizerEntity :=
  {| _headers := ∅;
     _camera := {| domain := EmptyString; object_id := EmptyString |};
     _name := EmptyString;
     _save_file_folder := None; _save_timestamped_file := false;
     _always_save_latest_jpg := false; _state := None; _results := PNone;
     _vehicles := []; _statistics := ∅; _last_detection := None;
     entity_id := None |}.

Definition blank : Machine :=
  {| self := blank_entity; heap := []; files := ∅; trace := [] |}.

(** ** The monad of methods: state and exceptions *)

Definition M (A : Type) : Type := Machine -> Outcome A * Machine.

Definition ret {A} (a : A) : M A := fun m => (Return a, m).

Definition raise {A} (e : Exn) : M A := fun m => (Raise e, m).

Definition bind {A B} (c : M A) (k : A -> M B) : M B :=
  fun m =>
    match c m with
    | (Return a, m') => k a m'
    | (Raise e, m') => (Raise e, m')
    end.

Notation "'let!' x ':=' c1 'in' c2" := (bind c1 (fun x => c2))
  (at level 10, x name, c1 at level 100, c2 at level 200).
Notation "c1 ;; c2" := (bind c1 (fun _ => c2))
  (at level 100, c2 at level 200, right associativity).

(** An expression without side effects. *)
Definition eval {A} (o : Outcome A) : M A := fun m => (o, m).

(** [try: body / except cls as exc: handler exc]; an exception outside
    [cls] passes through. *)
Definition try_except {A} (body : M A) (cls : Exn -> bool) (handler : Exn -> M A) : M A :=
  fun m =>
    match body m with
    | (Return a, m') => (Return a, m')
    | (Raise e, m') => if cls e then handler e m' else (Raise e, m')
    end.

(** [except Exception]: every class of [Exn] derives from it. *)
Definition Exception (e : Exn) : bool := true.

Definition is_UnidentifiedImageError (e : Exn) : bool :=
  match e with
  | UnidentifiedImageError => true
  | _ => false
  end.

(** Reading a field of [self]. *)
Definition get_field {A} (f : PlateRecognizerEntity -> A) : M A :=
  fun m => (Return (f (self m)), m).

(** Assigning to a field of [self]. *)
Definition assign (f : PlateRecognizerEntity -> PlateRecognizerEntity) : M unit :=
  fun m => (Return tt, with_self f m).

Definition emit (e : Effect) : M unit :=
  fun m => (Return tt, with_trace (fun t => t ++ [e]) m).

(** A dict display or [dict.copy()]: a new object. *)
Definition alloc (d : dict) : M loc :=
  fun m => (Return (length (heap m)), with_heap (fun h => h ++ [d]) m).

Definition deref (l : loc) : M dict :=
  fun m =>
    match heap m !! l with
    | Some d => (Return d, m)
    | None => (Raise ReferenceError, m)
    end.

(** [l.update({k: v})]: the object changes in place. *)
Definition dict_update (l : loc) (k : string) (v : pyval) : M unit :=
  let! d := deref l in
  fun m => (Return tt, with_heap (fun h => <[l := <[k := v]> d]> h) m).

(** [for x in xs: body x] *)
Fixpoint for_each {A} (xs : list A) (body : A -> M unit) : M unit :=
  match xs with
  | [] => ret tt
  | x :: rest => body x ;; for_each rest body
  end.

(** [[f x for x in xs]] *)
Fixpoint comprehension {A B} (xs : list A) (f : A -> M B) : M (list B) :=
  match xs with
  | [] => ret []
  | x :: rest =>
      let! y := f x in
      let! ys := comprehension rest f in
      ret (y :: ys)
  end.

Definition _LOGGER (level : Level) (msg : string) (arg : LogArg) : M unit :=
  emit (ELog level msg arg).

(** ** The methods of [PlateRecognizerEntity] *)

Definition py_of_option (x : option string) : pyval :=
  match x with
  | Some s => PStr s
  | None => PNone
  end.

(** [response.update({k: x})], on the parsed response. *)
Definition update (response : pyval) (k : string) (x : pyval) : Outcome dict :=
  match response with
  | PDict d => Return (<[k := x]> d)
  | _ => Raise AttributeError
  end.

Definition copy (d : dict) : dict := d.

Definition get_statistics (env : Env) : M unit :=
  try_except
    (let! headers := get_field _headers in
     emit (EGet STATS_URL headers) ;;
     let! response := eval (requests_get_json env STATS_URL headers) in
     let! total_calls := eval (getitem response "total_calls") in
     let! usage := eval (getitem response "usage") in
     let! calls := eval (getitem usage "calls") in
     let! calls_remaining := eval (py_sub total_calls calls) in
     let! response := eval (update response "calls_remaining" calls_remaining) in
     assign (set_statistics (copy response)))
    Exception
    (fun exc =>
       _LOGGER ERROR "platerecognizer error getting statistics: %s" (ArgExn exc)).

Definition fire_vehicle_detected_event (vehicle : loc) : M unit :=
  let! d := deref vehicle in
  let! vehicle_copy := alloc (copy d) in
  let! eid := get_field entity_id in
  dict_update vehicle_copy ATTR_ENTITY_ID (py_of_option eid) ;;
  emit (EFire EVENT_VEHICLE_DETECTED vehicle_copy).

(** [folder / name] of [pathlib], for a folder without a trailing separator
    and a plain file name; [None / name] is a [TypeError]. *)
Definition path_div (folder : option string) (name : string) : Outcome string :=
  match folder with
  | Some p => Return (p +:+ "/" +:+ name)
  | None => Raise TypeError
  end.

(** [img.save(path)]; a failed write leaves the model's disk as it was. *)
Definition img_save (env : Env) (img : Image) (path : string) : M unit :=
  fun m =>
    match Image_save env img path with
    | Some e => (Raise e, m)
    | None =>
        (Return tt,
         with_trace (fun t => t ++ [ESave path img]) (with_files (<[path := img]>) m))
    end.

Definition save_image (env : Env) (image : bytes) : M unit :=
  let! opened :=
    try_except
      (emit (EOpen image) ;;
       let! img := eval (Image_open env image) in
       ret (Some img))
      is_UnidentifiedImageError
      (fun _ =>
         _LOGGER WARNING "platerecognizer unable to save image, bad data" ArgNone ;;
         ret None) in
  match opened with
  | None => ret tt
  | Some img =>
      (* [ImageDraw.Draw(img)] draws nothing, and the loop body is [pass] *)
      let! vehicles := get_field _vehicles in
      for_each vehicles (fun _ => ret tt) ;;
      let! folder := get_field _save_file_folder in
      let! name := get_field _name in
      let! latest_save_path := eval (path_div folder (name +:+ "_latest.png")) in
      img_save env img latest_save_path ;;
      let! save_timestamped_file := get_field _save_timestamped_file in
      if save_timestamped_file : bool then
        let! last_detection := get_field _last_detection in
        let! timestamp_save_path :=
          eval (path_div folder (name +:+ "_" +:+ py_str last_detection +:+ ".png")) in
        img_save env img timestamp_save_path ;;
        _LOGGER INFO "platerecognizer saved file %s" (ArgPath timestamp_save_path)
      else ret tt
  end.

(** [self._state > 0]; comparing [None] with an int is a [TypeError]. *)
Definition positive_state (state : option Z) : Outcome bool :=
  match state with
  | Some n => Return (0 <? n)%Z
  | None => Raise TypeError
  end.

(** The element of the list comprehension of [process_image]. *)
Definition vehicle_record (r : pyval) : M loc :=
  let! plate := eval (getitem r "plate") in
  let! score := eval (getitem r "score") in
  let! region := eval (getitem r "region") in
  let! code := eval (getitem region "code") in
  let! vehicle := eval (getitem r "vehicle") in
  let! type := eval (getitem vehicle "type") in
  alloc (<[ATTR_VEHICLE_TYPE := type]> (<[ATTR_REGION_CODE := code]>
          (<[ATTR_CONFIDENCE := score]> (<[ATTR_PLATE := plate]> ∅)))).

Definition process_image (env : Env) (image : bytes) : M unit :=
  assign (set_results (PDict ∅)) ;;
  let! placeholder := alloc ∅ in
  assign (set_vehicles [placeholder]) ;;
  try_except
    (let! headers := get_field _headers in
     emit (EPost PLATE_READER_URL image headers) ;;
     let! response := eval (requests_post_json env PLATE_READER_URL image headers) in
     let! results := eval (getitem response "results") in
     assign (set_results results) ;;
     let! entries := eval (iter results) in
     let! vehicles := comprehension entries vehicle_record in
     assign (set_vehicles vehicles))
    Exception
    (fun exc =>
       _LOGGER ERROR "platerecognizer error processing image: %s" (ArgExn exc)) ;;
  let! vehicles := get_field _vehicles in
  assign (set_state (Some (Z.of_nat (length vehicles)))) ;;
  let! state := get_field _state in
  let! detected := eval (positive_state state) in
  (if detected : bool then
     assign (set_last_detection (Some (strftime DATETIME_FORMAT (dt_now env)))) ;;
     let! vehicles := get_field _vehicles in
     for_each vehicles fire_vehicle_detected_event
   else ret tt) ;;
  let! folder := get_field _save_file_folder in
  (if folder is Some _ then
     let! state := get_field _state in
     let! detected := eval (positive_state state) in
     let! always_save_latest_jpg := get_field _always_save_latest_jpg in
     if detected || always_save_latest_jpg then save_image env image else ret tt
   else ret tt) ;;
  get_statistics env.

Definition __init__ (env : Env) (api_token : string) (save_file_folder : option string)
    (save_timestamped_file always_save_latest_jpg : bool)
    (camera_entity : EntityId) (name : option string) : M unit :=
  let name' :=
    if truthy name then py_str name
    else "platerecognizer_" +:+ (split_entity_id camera_entity).2 in
  let! placeholder := alloc ∅ in
  assign (fun e =>
    {| _headers := {[ "Authorization" := "Token " +:+ api_token ]};
       _camera := camera_entity;
       _name := name';
       _save_file_folder := save_file_folder;
       _save_timestamped_file := save_timestamped_file;
       _always_save_latest_jpg := always_save_latest_jpg;
       _state := None;
       _results := PDict ∅;
       _vehicles := [placeholder];
       _statistics := ∅;
       _last_detection := None;
       entity_id := entity_id e |}) ;;
  get_statistics env.

(** *** Read-only properties *)

Definition camera_entity (e : PlateRecognizerEntity) : EntityId := _camera e.
Definition name (e : PlateRecognizerEntity) : string := _name e.
Definition should_poll (e : PlateRecognizerEntity) : bool := false.
Definition state (e : PlateRecognizerEntity) : option Z := _state e.
Definition unit_of_measurement (e : PlateRecognizerEntity) : string := ATTR_PLATE.

(** A value of the attribute map: a plain value, or the list object
    [self._vehicles] itself, whose elements are the heap's records. *)
Inductive AttrValue : Type :=
  | AValue (v : pyval)
  | ARecords (l : list loc).

Definition device_state_attributes (e : PlateRecognizerEntity) : gmap string AttrValue :=
  let attr : gmap string AttrValue := ∅ in
  let attr := <["last_detection" := AValue (py_of_option (_last_detection e))]> attr in
  let attr := <["vehicles" := ARecords (_vehicles e)]> attr in
  let attr := <["statistics" := AValue (PDict (_statistics e))]> attr in
  match _save_file_folder e with
  | Some folder =>
      <[CONF_ALWAYS_SAVE_LATEST_JPG := AValue (PBool (_always_save_latest_jpg e))]>
        (<[CONF_SAVE_TIMESTAMPTED_FILE := AValue (PBool (_save_timestamped_file e))]>
           (<[CONF_SAVE_FILE_FOLDER := AValue (PStr folder)]> attr))
  | None => attr
  end.

(** ** The statements of [process_image], named one by one

    [process_image] is the sequence of the four blocks below followed by
    [get_statistics] (lemma [process_image_phases]). *)

(** Lines 110-111: the reset. *)
Definition reset : M unit :=
  assign (set_results (PDict ∅)) ;;
  let! placeholder := alloc ∅ in
  assign (set_vehicles [placeholder]).

(** Lines 112-126: the [try] statement. *)
Definition recognition (env : Env) (image : bytes) : M unit :=
  try_except
    (let! headers := get_field _headers in
     emit (EPost PLATE_READER_URL image headers) ;;
     let! response := eval (requests_post_json env PLATE_READER_URL image headers) in
     let! results := eval (getitem response "results") in
     assign (set_results results) ;;
     let! entries := eval (iter results) in
     let! vehicles := comprehension entries vehicle_record in
     assign (set_vehicles vehicles))
    Exception
    (fun exc =>
       _LOGGER ERROR "platerecognizer error processing image: %s" (ArgExn exc)).

(** Lines 128-132: the state and the events. *)
Definition notification (env : Env) : M unit :=
  let! vehicles := get_field _vehicles in
  assign (set_state (Some (Z.of_nat (length vehicles)))) ;;
  let! state := get_field _state in
  let! detected := eval (positive_state state) in
  if detected : bool then
    assign (set_last_detection (Some (strftime DATETIME_FORMAT (dt_now env)))) ;;
    let! vehicles := get_field _vehicles in
    for_each vehicles fire_vehicle_detected_event
  else ret tt.

(** Lines 133-135: the save step and its guard. *)
Definition persistence (env : Env) (image : bytes) : M unit :=
  let! folder := get_field _save_file_folder in
  if folder is Some _ then
    let! state := get_field _state in
    let! detected := eval (positive_state state) in
    let! always_save_latest_jpg := get_field _always_save_latest_jpg in
    if detected || always_save_latest_jpg then save_image env image else ret tt
  else ret tt.

(** ** Observations *)

(** What a call added to the trace. *)
Definition effects_since (m m' : Machine) : list Effect :=
  drop (length (trace m)) (trace m').

Definition fired (es : list Effect) : list (string * loc) :=
  omap (fun e => if e is EFire n l then Some (n, l) else None) es.

Definition opened (es : list Effect) : list bytes :=
  omap (fun e => if e is EOpen b then Some b else None) es.

Definition saved (es : list Effect) : list (string * Image) :=
  omap (fun e => if e is ESave p i then Some (p, i) else None) es.

Definition fetched (es : list Effect) : list string :=
  omap (fun e => if e is EGet url _ then Some url else None) es.

Definition logged (es : list Effect) : list (Level * string) :=
  omap (fun e => if e is ELog l msg _ then Some (l, msg) else None) es.

(** The four values that [process_image] reads from one entry of the
    results. *)
Record Fields : Type := {
  f_plate : pyval;
  f_score : pyval;
  f_region_code : pyval;
  f_vehicle_type : pyval
}.

(** [r["plate"]], [r["score"]], [r["region"]["code"]] and
    [r["vehicle"]["type"]] exist and are the values of [f]. *)
Definition has_fields (r : pyval) (f : Fields) : Prop :=
  getitem r "plate" = Return (f_plate f) ∧
  getitem r "score" = Return (f_score f) ∧
  (∃ region, getitem r "region" = Return region ∧
             getitem region "code" = Return (f_region_code f)) ∧
  (∃ vehicle, getitem r "vehicle" = Return vehicle ∧
              getitem vehicle "type" = Return (f_vehicle_type f)).

(** The vehicle record made of an entry's fields. *)
Definition record_of (f : Fields) : dict :=
  <[ATTR_VEHICLE_TYPE := f_vehicle_type f]> (<[ATTR_REGION_CODE := f_region_code f]>
    (<[ATTR_CONFIDENCE := f_score f]> (<[ATTR_PLATE := f_plate f]> ∅))).

(** The event payload of a vehicle record [d] fired by the entity [eid]. *)
Definition payload_of (eid : option string) (d : dict) : dict :=
  <[ATTR_ENTITY_ID := py_of_option eid]> d.

(** A recognition response with the entries [entries], all well formed;
    [headers] are the entity's request headers. *)
Definition recognised (env : Env) (image : bytes) (headers : gmap string string)
    (results : pyval) (entries : list pyval) (fs : list Fields) : Prop :=
  ∃ d, requests_post_json env PLATE_READER_URL image headers = Return (PDict d) ∧
       d !! "results" = Some results ∧
       iter results = Return entries ∧
       Forall2 has_fields entries fs.

(** The ways in which the POST or the reading of its answer raises. *)
Inductive recognition_error (env : Env) (image : bytes) (headers : gmap string string) : Prop :=
  | post_raises exc :
      requests_post_json env PLATE_READER_URL image headers = Raise exc ->
      recognition_error env image headers
  | results_missing response exc :
      requests_post_json env PLATE_READER_URL image headers = Return response ->
      getitem response "results" = Raise exc ->
      recognition_error env image headers
  | results_not_iterable response results exc :
      requests_post_json env PLATE_READER_URL image headers = Return response ->
      getitem response "results" = Return results ->
      iter results = Raise exc ->
      recognition_error env image headers
  | entry_malformed response results entries :
      requests_post_json env PLATE_READER_URL image headers = Return response ->
      getitem response "results" = Return results ->
      iter results = Return entries ->
      (¬ ∃ fs, Forall2 has_fields entries fs) ->
      recognition_error env image headers.

(** A statistics response with its quota [total] and its usage [used]. *)
Definition quota (env : Env) (headers : gmap string string)
    (d : dict) (total used : pyval) : Prop :=
  requests_get_json env STATS_URL headers = Return (PDict d) ∧
  d !! "total_calls" = Some total ∧
  ∃ usage, d !! "usage" = Some usage ∧ getitem usage "calls" = Return used.

(** The statistics request and the reading of its answer go through. *)
Definition quota_known (env : Env) (headers : gmap string string) : Prop :=
  ∃ d total used remaining,
    quota env headers d total used ∧ py_sub total used = Return remaining.

(** The fields after lines 110-130 of [process_image], when the [try]
    statement left the results [results] and the vehicles [vs]. *)
Definition detected_entity (env : Env) (e : PlateRecognizerEntity)
    (results : pyval) (vs : list loc) : PlateRecognizerEntity :=
  let e' := set_state (Some (Z.of_nat (length vs))) (set_vehicles vs (set_results results e)) in
  match vs with
  | [] => e'
  | _ :: _ => set_last_detection (Some (strftime DATETIME_FORMAT (dt_now env))) e'
  end.

(** The condition of the save step, on the entity after the call. *)
Definition save_wanted (e : PlateRecognizerEntity) : bool :=
  match _save_file_folder e, _state e with
  | Some _, Some n => (0 <? n)%Z || _always_save_latest_jpg e
  | _, _ => false
  end.

(** The two file names of [save_image]. *)
Definition latest_path (dir : string) (e : PlateRecognizerEntity) : string :=
  dir +:+ "/" +:+ (_name e +:+ "_latest.png").

Definition stamped_path (dir : string) (e : PlateRecognizerEntity) (stamp : string) : string :=
  dir +:+ "/" +:+ (_name e +:+ "_" +:+ stamp +:+ ".png").

(** The machines that the host can bring about: a construction, then any
    number of images, whatever the world answers. *)
Inductive reachable : Machine -> Prop :=
  | reach_init env api_token folder stamped always camera name m0 :
      reachable (__init__ env api_token folder stamped always camera name m0).2
  | reach_process env image m :
      reachable m ->
      reachable (process_image env image m).2.

(** ** Sample data *)
Module Sample.

Definition fields (plate : string) : Fields :=
  {| f_plate := PStr plate;
     f_score := PFloat (S754_finite false 8125550909276815 (-53));
     f_region_code := PStr "gb";
     f_vehicle_type := PStr "Car" |}.

(** One entry of the results, as the service documents it. *)
Definition entry (plate : string) : pyval :=
  PDict (<["plate" := f_plate (fields plate)]>
        (<["score" := f_score (fields plate)]>
        (<["region" := PDict {[ "code" := f_region_code (fields plate) ]}]>
        (<["vehicle" := PDict {[ "type" := f_vehicle_type (fields plate) ]}]> ∅)))).

Definition reading (entries : list pyval) : dict := {[ "results" := PList entries ]}.

Definition usage : dict := {[ "calls" := PInt 12 ]}.

Definition plan : dict :=
  <["total_calls" := PInt 2500]> (<["usage" := PDict usage]> ∅).

Definition picture : Image := {| width := 1; height := 1; pixels := [(0, 0, 0)] |}.

Definition morning : datetime :=
  {| year := 2026; month := 3; day := 7; hour := 9; minute := 5; second := 0 |}.

(** The service answers with [entries]; decoding and writing go through. *)
Definition answering (entries : list pyval) : Env :=
  {| requests_post_json := fun _ _ _ => Return (PDict (reading entries));
     requests_get_json := fun _ _ => Return (PDict plan);
     dt_now := morning;
     Image_open := fun _ => Return picture;
     Image_save := fun _ _ => None |}.

(** The disk refuses every write. *)
Definition read_only : Env :=
  {| requests_post_json := fun _ _ _ => Return (PDict (reading []));
     requests_get_json := fun _ _ => Return (PDict plan);
     dt_now := morning;
     Image_open := fun _ => Return picture;
     Image_save := fun _ _ => Some OSError |}.

(** No network, and the camera delivers bytes that are no picture. *)
Definition offline : Env :=
  {| requests_post_json := fun _ _ _ => Raise ConnectionError;
     requests_get_json := fun _ _ => Raise ConnectionError;
     dt_now := morning;
     Image_open := fun _ => Raise UnidentifiedImageError;
     Image_save := fun _ _ => None |}.

Definition front : EntityId := {| domain := "camera"; object_id := "front" |}.

(** The object as the host hands it to [__init__]. *)
Definition registered : Machine :=
  {| self :=
       {| _headers := ∅; _camera := front; _name := EmptyString;
          _save_file_folder := None; _save_timestamped_file := false;
          _always_save_latest_jpg := false; _state := None; _results := PNone;
          _vehicles := []; _statistics := ∅; _last_detection := None;
          entity_id := Some "image_processing.platerecognizer_front" |};
     heap := []; files := ∅; trace := [] |}.

(** An entity that saves every frame, with a time-stamped copy. *)
Definition installed : Machine :=
  (__init__ (answering []) "token" (Some "/config/www") true true front None
     registered).2.

(** An entity without a save directory, asked to save every frame. *)
Definition unsaved : Machine :=
  (__init__ (answering []) "token" None false true front None registered).2.

(** The saving entity after an image with one vehicle. *)
Definition seen : Machine :=
  (process_image (answering [entry "AB12CDE"]) [] installed).2.

End Sample.

Import Sample.

(** ** The platform: [setup_platform] *)

(** One element of [config[CONF_SOURCE]], after validation by the schema. *)
Record Camera : Type := {
  CONF_ENTITY_ID : EntityId;
  CONF_NAME : option string
}.

(** The platform configuration, after validation by [PLATFORM_SCHEMA]:
    the token is required, the folder is optional, the flags default to
    [False]. *)
Record Config : Type := {
  conf_api_token : string;
  conf_save_file_folder : option string;
  conf_save_timestamped_file : bool;
  conf_always_save_latest_jpg : bool;
  conf_source : list Camera
}.

(** [PlateRecognizerEntity(...)]: a new object, then [__init__] on it.  The
    machine's [self] is the object the running method works on. *)
Definition construct (env : Env) (api_token : string) (save_file_folder : option string)
    (save_timestamped_file always_save_latest_jpg : bool)
    (camera_entity : EntityId) (name : option string) : M PlateRecognizerEntity :=
  assign (fun _ => blank_entity) ;;
  __init__ env api_token save_file_folder save_timestamped_file
    always_save_latest_jpg camera_entity name ;;
  get_field (fun e => e).

(** The loop of [setup_platform]; [world i] is what the world answers while
    the entity of the [i]-th camera is built. *)
Fixpoint setup_entities (world : nat -> Env) (i : nat) (config : Config)
    (save_file_folder : option string) (cameras : list Camera) :
    M (list PlateRecognizerEntity) :=
  match cameras with
  | [] => ret []
  | camera :: rest =>
      let! platerecognizer :=
        construct (world i) (conf_api_token config) save_file_folder
          (conf_save_timestamped_file config) (conf_always_save_latest_jpg config)
          (CONF_ENTITY_ID camera) (CONF_NAME camera) in
      let! entities := setup_entities world (S i) config save_file_folder rest in
      ret (platerecognizer :: entities)
  end.

(** The value is the list handed to [add_entities].  [Path(folder)] is taken
    for a truthy folder; a falsy one is passed on as it is and stays falsy
    for the entity, which is [None] here. *)
Definition setup_platform (world : nat -> Env) (config : Config) :
    M (list PlateRecognizerEntity) :=
  let save_file_folder :=
    if truthy (conf_save_file_folder config) then conf_save_file_folder config
    else None in
  setup_entities world 0 config save_file_folder (conf_source config).

(** ** A series of images *)

(** A series of images, each with what the world answers during it. *)
Definition process_all (calls : list (Env * bytes)) (m : Machine) : Machine :=
  fold_left (fun m call => (process_image call.1 call.2 m).2) calls m.

(** ** Further observations and predicates *)

Definition posted (es : list Effect) : list (string * bytes * gmap string string) :=
  omap (fun e => if e is EPost url b h then Some (url, b, h) else None) es.

Definition requested (es : list Effect) : list (string * gmap string string) :=
  omap (fun e => if e is EGet url h then Some (url, h) else None) es.

(** The disk after the writes [ws], made in that order. *)
Definition replay (ws : list (string * Image)) (disk : gmap string Image) :
    gmap string Image :=
  fold_left (fun disk w => <[w.1 := w.2]> disk) ws disk.

(** The entity that a construction yields, up to its statistics. *)
Definition built (api_token : string) (folder : option string) (stamped always : bool)
    (camera : Camera) (placeholder : loc) (stats : dict) : PlateRecognizerEntity :=
  {| _headers := {[ "Authorization" := "Token " +:+ api_token ]};
     _camera := CONF_ENTITY_ID camera;
     _name := if truthy (CONF_NAME camera) then py_str (CONF_NAME camera)
              else "platerecognizer_" +:+ object_id (CONF_ENTITY_ID camera);
     _save_file_folder := folder;
     _save_timestamped_file := stamped;
     _always_save_latest_jpg := always;
     _state := None;
     _results := PDict ∅;
     _vehicles := [placeholder];
     _statistics := stats;
     _last_detection := None;
     entity_id := None |}.

(** What the statistics of a new entity are, by the answer to its request. *)
Definition first_statistics (env : Env) (headers : gmap string string) (stats : dict) : Prop :=
  (∀ d total used r, quota env headers d total used -> py_sub total used = Return r ->
     stats = <["calls_remaining" := r]> d) ∧
  (¬ quota_known env headers -> stats = ∅).


(** ** Further sample data *)

Module Scene.

(** The camera delivers a file cut short: the decoder gives up on it. *)
Definition truncated : Env :=
  {| requests_post_json := fun _ _ _ => Return (PDict (reading [entry "AB12CDE"]));
     requests_get_json := fun _ _ => Return (PDict plan);
     dt_now := morning;
     Image_open := fun _ => Raise OSError;
     Image_save := fun _ _ => None |}.

(** The disk has room for the latest file of the front camera and for
    nothing else. *)
Definition full_disk : Env :=
  {| requests_post_json := fun _ _ _ => Return (PDict (reading [entry "AB12CDE"]));
     requests_get_json := fun _ _ => Return (PDict plan);
     dt_now := morning;
     Image_open := fun _ => Return picture;
     Image_save := fun _ path =>
       if String.eqb path "/config/www/platerecognizer_front_latest.png" then None
       else Some OSError |}.

(** An account without a quota: [total_calls] is [null]. *)
Definition unmetered_plan : dict :=
  <["total_calls" := PNone]> (<["usage" := PDict usage]> ∅).

Definition unmetered : Env :=
  {| requests_post_json := fun _ _ _ => Return (PDict (reading []));
     requests_get_json := fun _ _ => Return (PDict unmetered_plan);
     dt_now := morning;
     Image_open := fun _ => Return picture;
     Image_save := fun _ _ => None |}.

(** An entry of the results without region and vehicle. *)
Definition partial_entry : pyval :=
  PDict (<["plate" := PStr "XY34ZZZ"]>
        (<["score" := PFloat (S754_finite false 8125550909276815 (-53))]> ∅)).


Definition back : EntityId := {| domain := "camera"; object_id := "back" |}.

Definition front_camera : Camera := {| CONF_ENTITY_ID := front; CONF_NAME := None |}.

Definition back_camera : Camera := {| CONF_ENTITY_ID := back; CONF_NAME := Some "drive" |}.

(** A platform with two cameras. *)
Definition household : Config :=
  {| conf_api_token := "token";
     conf_save_file_folder := Some "/config/www";
     conf_save_timestamped_file := true;
     conf_always_save_latest_jpg := false;
     conf_source := [front_camera; back_camera] |}.

(** The network comes up after the first entity is built. *)
Definition booting (i : nat) : Env :=
  match i with
  | 0 => offline
  | S _ => answering []
  end.

End Scene.

Import Scene.

(** ** Proof tactics *)

Ltac split_match :=
  match goal with
  | |- context [match ?x with _ => _ end] => destruct x eqn:?
  end.

Ltac fail_case :=
  unfold with_trace, with_self, with_heap, with_files; cbn;
  rewrite <- ?app_assoc; cbn; eauto.

(** * Proofs *)

(** ** The monad *)

Lemma bind_return {A B} (c : M A) (k : A -> M B) m a m1 :
  c m = (Return a, m1) -> bind c k m = k a m1.
Proof. intros H. unfold bind. by rewrite H. Qed.

Lemma bind_raise {A B} (c : M A) (k : A -> M B) m e m1 :
  c m = (Raise e, m1) -> bind c k m = (Raise e, m1).
Proof. intros H. unfold bind. by rewrite H. Qed.

Lemma for_each_pass {A} (xs : list A) m : for_each xs (fun _ => ret tt) m = (Return tt, m).
Proof.
  induction xs as [|x xs IH]; [done|].
  cbn [for_each]. by rewrite (bind_return _ _ m tt m).
Qed.

(** ** Fields and observations *)

Lemma set_statistics_same e : set_statistics (_statistics e) e = e.
Proof. by destruct e. Qed.

Lemma set_vehicles_same e : set_vehicles (_vehicles e) e = e.
Proof. by destruct e. Qed.

Lemma detected_entity_state env e r vs :
  _state (detected_entity env e r vs) = Some (Z.of_nat (length vs)).
Proof. by destruct vs. Qed.

Lemma detected_entity_frame env e r vs :
  _headers (detected_entity env e r vs) = _headers e ∧
  _camera (detected_entity env e r vs) = _camera e ∧
  _name (detected_entity env e r vs) = _name e ∧
  _save_file_folder (detected_entity env e r vs) = _save_file_folder e ∧
  _save_timestamped_file (detected_entity env e r vs) = _save_timestamped_file e ∧
  _always_save_latest_jpg (detected_entity env e r vs) = _always_save_latest_jpg e ∧
  _statistics (detected_entity env e r vs) = _statistics e ∧
  entity_id (detected_entity env e r vs) = entity_id e ∧
  _vehicles (detected_entity env e r vs) = vs ∧
  _results (detected_entity env e r vs) = r.
Proof. by destruct vs. Qed.

Lemma save_wanted_spec e :
  save_wanted e = true <->
  (∃ dir, _save_file_folder e = Some dir) ∧
  ∃ n, _state e = Some n ∧ ((0 < n)%Z ∨ _always_save_latest_jpg e = true).
Proof.
  unfold save_wanted. split.
  - destruct (_save_file_folder e) as [dir|]; [|done].
    destruct (_state e) as [n|]; [|done].
    intros [H|H]%orb_true_iff; (split; [by eauto|]); exists n; split; auto.
    left. by apply Z.ltb_lt.
  - intros [[dir ->] (n & -> & H)]. apply orb_true_iff.
    destruct H as [H|H]; [left; by apply Z.ltb_lt|by right].
Qed.

Lemma effects_since_app (m m' : Machine) es :
  trace m' = trace m ++ es -> effects_since m m' = es.
Proof. intros H. unfold effects_since. rewrite H. apply drop_app_length. Qed.

Lemma fired_fires n (ls : list loc) : fired (EFire n <$> ls) = (fun l => (n, l)) <$> ls.
Proof. induction ls as [|l ls IH]; [done|]. cbn. by rewrite <- IH. Qed.

Lemma opened_fires n (ls : list loc) : opened (EFire n <$> ls) = [].
Proof. by induction ls. Qed.

Lemma saved_fires n (ls : list loc) : saved (EFire n <$> ls) = [].
Proof. by induction ls. Qed.

Lemma Forall2_exists_l {A B} (P : A -> B -> Prop) l k :
  Forall2 P l k -> Forall (fun x => ∃ y, P x y) l.
Proof. induction 1; constructor; eauto. Qed.

(** Objects allocated in a row sit at consecutive locations. *)
Lemma fresh_block (l : list dict) : forall h : list dict,
  Forall2 (fun v d => (h ++ l) !! v = Some d) (seq (length h) (length l)) l.
Proof.
  induction l as [|x l IH]; intros h; cbn; constructor.
  - by apply list_lookup_middle.
  - specialize (IH (h ++ [x])).
    rewrite <- app_assoc, length_app, Nat.add_1_r in IH. exact IH.
Qed.

Lemma record_of_unmarked f : record_of f !! ATTR_ENTITY_ID = None.
Proof. reflexivity. Qed.

(** ** Time stamps and file names *)

Lemma digit_is_digit n : is_digit (digit n) = true.
Proof.
  unfold digit. pose proof (Nat.mod_upper_bound n 10 ltac:(lia)) as Hlt.
  destruct (n mod 10) as [|[|[|[|[|[|[|[|[|[|k]]]]]]]]]]; try reflexivity. lia.
Qed.

(** [strftime] with [DATETIME_FORMAT] yields the shape
    [YYYY-MM-DD_HH-MM-SS]. *)
Lemma strftime_shape d : is_timestamp (strftime DATETIME_FORMAT d) = true.
Proof.
  cbv [strftime DATETIME_FORMAT directive zero_padded String.append is_timestamp
       list_ascii_of_string forallb Ascii.eqb Bool.eqb andb].
  by rewrite !digit_is_digit.
Qed.





(** ** [get_statistics] *)

(** The request and the reading of its answer go through. *)
Lemma get_statistics_success env m d total used r :
  quota env (_headers (self m)) d total used ->
  py_sub total used = Return r ->
  get_statistics env m =
  (Return tt,
   {| self := set_statistics (<["calls_remaining" := r]> d) (self m);
      heap := heap m; files := files m;
      trace := trace m ++ [EGet STATS_URL (_headers (self m))] |}).
Proof.
  intros (Hget & Htotal & usage & Husage & Hcalls) Hsub.
  unfold get_statistics, try_except, bind, get_field, emit, eval, assign. cbn.
  rewrite Hget. cbn. rewrite Htotal, Husage, Hcalls, Hsub. reflexivity.
Qed.

(** Anything in the [try] body raises: only the log grows. *)
Lemma get_statistics_failure env m :
  ¬ quota_known env (_headers (self m)) ->
  ∃ exc,
    get_statistics env m =
    (Return tt,
     {| self := self m; heap := heap m; files := files m;
        trace := trace m ++ [EGet STATS_URL (_headers (self m));
                             ELog ERROR "platerecognizer error getting statistics: %s"
                                  (ArgExn exc)] |}).
Proof.
  intros Hno.
  unfold get_statistics, try_except, bind, get_field, emit, eval, assign, _LOGGER, emit. cbn.
  destruct (requests_get_json env STATS_URL (_headers (self m))) as [response|exc] eqn:Hget;
    cbn; [|fail_case].
  destruct (getitem response "total_calls") as [total|exc] eqn:Htotal;
    cbn; [|fail_case].
  destruct (getitem response "usage") as [usage|exc] eqn:Husage;
    cbn; [|fail_case].
  destruct (getitem usage "calls") as [used|exc] eqn:Hcalls;
    cbn; [|fail_case].
  destruct (py_sub total used) as [r|exc] eqn:Hsub;
    cbn; [|fail_case].
  destruct Hno. destruct response as [| | | | | |d]; try discriminate.
  exists d, total, used, r. split; [|done].
  cbn in Htotal, Husage. split; [done|].
  destruct (d !! "total_calls") eqn:E1; [|discriminate].
  destruct (d !! "usage") eqn:E2; [|discriminate].
  split; [congruence|]. exists usage. split; congruence.
Qed.

Lemma quota_cases env headers :
  quota_known env headers ∨ ¬ quota_known env headers.
Proof.
  unfold quota_known, quota.
  destruct (requests_get_json env STATS_URL headers) as [[| | | | | |d]|exc];
    try (right; intros (? & ? & ? & ? & (? & _) & _); discriminate).
  destruct (d !! "total_calls") as [total|] eqn:Htotal;
    [|right; intros (? & ? & ? & ? & (? & ? & _) & _); congruence].
  destruct (d !! "usage") as [usage|] eqn:Husage;
    [|right; intros (? & ? & ? & ? & (? & _ & ? & ? & _) & _); congruence].
  destruct (getitem usage "calls") as [used|exc] eqn:Hcalls;
    [|right; intros (? & ? & ? & ? & (? & _ & ? & ? & ?) & _); congruence].
  destruct (py_sub total used) as [r|exc] eqn:Hsub.
  - left. exists d, total, used, r. eauto 10.
  - right. intros (? & ? & ? & ? & (? & ? & ? & ? & ?) & ?). congruence.
Qed.

(** Either way [get_statistics] returns, touches no field but the
    statistics, and adds one GET and at most a log record to the trace. *)
Lemma get_statistics_frame env m :
  ∃ stats log,
    get_statistics env m =
    (Return tt,
     {| self := set_statistics stats (self m); heap := heap m; files := files m;
        trace := trace m ++ EGet STATS_URL (_headers (self m)) :: log |}) ∧
    fired log = [] ∧ opened log = [] ∧ saved log = [] ∧ fetched log = [].
Proof.
  destruct (quota_cases env (_headers (self m))) as [(d & total & used & r & Hq & Hsub)|Hno].
  - exists (<["calls_remaining" := r]> d), [].
    by rewrite (get_statistics_success _ _ _ _ _ _ Hq Hsub).
  - destruct (get_statistics_failure _ _ Hno) as [exc ->].
    exists (_statistics (self m)),
      [ELog ERROR "platerecognizer error getting statistics: %s" (ArgExn exc)].
    by rewrite set_statistics_same.
Qed.

(** ** [fire_vehicle_detected_event] and the loop over the vehicles *)

(** One event: the record is read, a copy is allocated at the end of the
    heap and marked there, and the copy is handed to the bus. *)
Lemma fire_run v d m :
  heap m !! v = Some d ->
  fire_vehicle_detected_event v m =
  (Return tt,
   {| self := self m;
      heap := heap m ++ [payload_of (entity_id (self m)) d];
      files := files m;
      trace := trace m ++ [EFire EVENT_VEHICLE_DETECTED (length (heap m))] |}).
Proof.
  intros Hv.
  unfold fire_vehicle_detected_event, dict_update, bind, deref, alloc, get_field, emit, copy.
  rewrite Hv. cbn.
  rewrite list_lookup_middle by done.
  unfold with_trace, with_heap. cbn.
  rewrite insert_app_r_alt by done.
  by rewrite Nat.sub_diag.
Qed.

(** The loop over live records appends one marked copy per record. *)
Lemma notify_all vs : forall ds m,
  Forall2 (fun v d => heap m !! v = Some d) vs ds ->
  for_each vs fire_vehicle_detected_event m =
  (Return tt,
   {| self := self m;
      heap := heap m ++ (payload_of (entity_id (self m)) <$> ds);
      files := files m;
      trace := trace m ++ (EFire EVENT_VEHICLE_DETECTED <$> seq (length (heap m)) (length vs)) |}).
Proof.
  induction vs as [|v vs IH]; intros ds m Hall.
  - apply Forall2_nil_inv_l in Hall as ->. cbn. rewrite !app_nil_r. by destruct m.
  - apply Forall2_cons_inv_l in Hall as (d & ds' & Hv & Hrest & ->).
    cbn [for_each]. erewrite bind_return by (by apply fire_run).
    rewrite (IH ds').
    + cbn. rewrite length_app. cbn. rewrite Nat.add_1_r.
      by rewrite <- !app_assoc.
    + cbn. eapply Forall2_impl; [exact Hrest|].
      intros x y Hx. by apply lookup_app_l_Some.
Qed.

(** Lines 128-132 on live records. *)
Lemma notification_run env m ds :
  Forall2 (fun v d => heap m !! v = Some d) (_vehicles (self m)) ds ->
  notification env m =
  (Return tt,
   {| self := detected_entity env (self m) (_results (self m)) (_vehicles (self m));
      heap := heap m ++ (payload_of (entity_id (self m)) <$> ds);
      files := files m;
      trace := trace m ++ (EFire EVENT_VEHICLE_DETECTED <$>
                             seq (length (heap m)) (length (_vehicles (self m)))) |}).
Proof.
  intros Hall.
  unfold notification, bind at 1 2 3 4, get_field, assign, eval, detected_entity.
  destruct (_vehicles (self m)) as [|v vs] eqn:Hvs; cbn.
  - apply Forall2_nil_inv_l in Hall as ->. cbn.
    unfold ret, with_self. rewrite !app_nil_r.
    destruct m as [[] h f t]. cbn in *. by subst.
  - rewrite (proj2 (Z.ltb_lt 0 _)) by lia.
    unfold bind at 1 2, assign, get_field. cbn. rewrite Hvs.
    erewrite notify_all by (cbn; exact Hall).
    destruct m as [[] h f t]. cbn in *. by subst.
Qed.

(** ** The list comprehension and the [try] statement *)

Lemma vehicle_record_ok r f m :
  has_fields r f ->
  vehicle_record r m =
  (Return (length (heap m)),
   {| self := self m; heap := heap m ++ [record_of f];
      files := files m; trace := trace m |}).
Proof.
  intros (Hp & Hs & (region & Hr & Hc) & (vehicle & Hv & Ht)).
  unfold vehicle_record, bind, eval, alloc.
  by rewrite Hp, Hs, Hr, Hc, Hv, Ht.
Qed.

(** An entry has the four fields, or building its record raises. *)
Lemma vehicle_record_cases r m :
  (∃ f, has_fields r f) ∨
  ((∀ f, ¬ has_fields r f) ∧ ∃ exc, vehicle_record r m = (Raise exc, m)).
Proof.
  unfold vehicle_record, bind, eval, alloc, has_fields.
  destruct (getitem r "plate") as [plate|exc] eqn:Hp;
    [|right; split; [intros f (? & _); congruence|eauto]].
  destruct (getitem r "score") as [score|exc] eqn:Hs;
    [|right; split; [intros f (_ & ? & _); congruence|eauto]].
  destruct (getitem r "region") as [region|exc] eqn:Hr;
    [|right; split; [intros f (_ & _ & (? & ? & _) & _); congruence|eauto]].
  destruct (getitem region "code") as [code|exc] eqn:Hc;
    [|right; split; [intros f (_ & _ & (? & ? & ?) & _); congruence|eauto]].
  destruct (getitem r "vehicle") as [vehicle|exc] eqn:Hv;
    [|right; split; [intros f (_ & _ & _ & (? & ? & _)); congruence|eauto]].
  destruct (getitem vehicle "type") as [type|exc] eqn:Ht;
    [|right; split; [intros f (_ & _ & _ & (? & ? & ?)); congruence|eauto]].
  left. exists {| f_plate := plate; f_score := score;
                  f_region_code := code; f_vehicle_type := type |}.
  cbn. eauto 10.
Qed.

Lemma entries_cases entries :
  (∃ fs, Forall2 has_fields entries fs) ∨ (¬ ∃ fs, Forall2 has_fields entries fs).
Proof.
  induction entries as [|r entries IH].
  - left. exists []. constructor.
  - destruct (vehicle_record_cases r blank)
      as [[f Hf]|[Hno _]].
    + destruct IH as [[fs Hfs]|Hno].
      * left. exists (f :: fs). by constructor.
      * right. intros [fs' Hfs'].
        apply Forall2_cons_inv_l in Hfs' as (? & fs'' & _ & ? & _). apply Hno. eauto.
    + right. intros [fs' Hfs'].
      apply Forall2_cons_inv_l in Hfs' as (f & ? & Hf & _). by apply (Hno f).
Qed.

Lemma comprehension_ok entries fs : forall m,
  Forall2 has_fields entries fs ->
  comprehension entries vehicle_record m =
  (Return (seq (length (heap m)) (length fs)),
   {| self := self m; heap := heap m ++ (record_of <$> fs);
      files := files m; trace := trace m |}).
Proof.
  intros m Hall. revert m.
  induction Hall as [|r f entries fs Hr _ IH]; intros m.
  - cbn. rewrite app_nil_r. by destruct m.
  - cbn [comprehension]. erewrite bind_return by (by apply vehicle_record_ok).
    erewrite bind_return by apply IH.
    cbn. rewrite length_app. cbn. rewrite Nat.add_1_r.
    by rewrite <- app_assoc.
Qed.

Lemma comprehension_failed entries : forall m,
  (¬ ∃ fs, Forall2 has_fields entries fs) ->
  ∃ exc garbage,
    comprehension entries vehicle_record m =
    (Raise exc,
     {| self := self m; heap := heap m ++ garbage;
        files := files m; trace := trace m |}).
Proof.
  induction entries as [|r entries IH]; intros m Hno.
  - destruct Hno. exists []. constructor.
  - cbn [comprehension].
    destruct (vehicle_record_cases r m) as [[f Hf]|[_ [exc Hexc]]].
    + erewrite bind_return by (by apply vehicle_record_ok).
      edestruct IH as (exc & garbage & Hexc).
      { intros [fs Hfs]. apply Hno. exists (f :: fs). by constructor. }
      erewrite bind_raise by exact Hexc.
      exists exc, (record_of f :: garbage). cbn. by rewrite <- app_assoc.
    + erewrite bind_raise by exact Hexc.
      exists exc, []. rewrite app_nil_r. by destruct m.
Qed.

(** The [try] statement on a well-formed response. *)
Lemma recognition_ok env image m results entries fs :
  recognised env image (_headers (self m)) results entries fs ->
  recognition env image m =
  (Return tt,
   {| self := set_vehicles (seq (length (heap m)) (length fs))
                (set_results results (self m));
      heap := heap m ++ (record_of <$> fs);
      files := files m;
      trace := trace m ++ [EPost PLATE_READER_URL image (_headers (self m))] |}).
Proof.
  intros (d & Hpost & Hres & Hiter & Hall).
  unfold recognition, try_except, bind at 1 2 3 4 5 6, get_field, emit, eval, assign. cbn.
  rewrite Hpost. cbn. rewrite Hres, Hiter.
  erewrite bind_return by (by apply comprehension_ok).
  reflexivity.
Qed.

(** The [try] statement when its body raises: the handler logs, and the
    vehicle list is the one the reset left. *)
Lemma recognition_failed env image m :
  recognition_error env image (_headers (self m)) ->
  ∃ exc r garbage,
    recognition env image m =
    (Return tt,
     {| self := set_results r (self m);
        heap := heap m ++ garbage;
        files := files m;
        trace := trace m ++ [EPost PLATE_READER_URL image (_headers (self m));
                             ELog ERROR "platerecognizer error processing image: %s"
                                  (ArgExn exc)] |}).
Proof.
  assert (Hsame : set_results (_results (self m)) (self m) = self m) by by destruct (self m).
  intros Herr.
  unfold recognition, try_except, bind at 1 2 3 4 5 6, get_field, emit, eval, assign, _LOGGER, emit.
  cbn.
  destruct Herr as [exc Hpost|response exc Hpost Hres|response results exc Hpost Hres Hiter
                   |response results entries Hpost Hres Hiter Hno]; rewrite Hpost; cbn.
  - exists exc, (_results (self m)), []. rewrite Hsame, app_nil_r. fail_case.
  - rewrite Hres. exists exc, (_results (self m)), []. rewrite Hsame, app_nil_r. fail_case.
  - rewrite Hres, Hiter. exists exc, results, []. rewrite app_nil_r. fail_case.
  - rewrite Hres, Hiter.
    match goal with |- context [bind (comprehension entries vehicle_record) _ ?m1] =>
      destruct (comprehension_failed entries m1 Hno) as (exc & garbage & Hexc)
    end.
    erewrite bind_raise by exact Hexc. cbn.
    exists exc, results, garbage. fail_case.
Qed.

(** A response is well formed or the [try] body raises. *)
Lemma recognition_cases env image headers :
  (∃ results entries fs, recognised env image headers results entries fs) ∨
  recognition_error env image headers.
Proof.
  destruct (requests_post_json env PLATE_READER_URL image headers)
    as [response|exc] eqn:Hpost; [|right; by eapply post_raises].
  destruct (getitem response "results") as [results|exc] eqn:Hres;
    [|right; by eapply results_missing].
  destruct (iter results) as [entries|exc] eqn:Hiter;
    [|right; by eapply results_not_iterable].
  destruct (entries_cases entries) as [[fs Hfs]|Hno];
    [|right; by eapply entry_malformed].
  left. exists results, entries, fs.
  destruct response as [| | | | | |d]; try discriminate.
  exists d. cbn in Hres. destruct (d !! "results") eqn:E; [|discriminate].
  repeat split; congruence.
Qed.

(** ** [save_image] and its guard *)

(** Bytes that are no picture: a warning, and nothing else. *)
Lemma save_image_unidentified env image m :
  Image_open env image = Raise UnidentifiedImageError ->
  save_image env image m =
  (Return tt,
   {| self := self m; heap := heap m; files := files m;
      trace := trace m ++ [EOpen image;
                           ELog WARNING "platerecognizer unable to save image, bad data"
                                ArgNone] |}).
Proof.
  intros Hopen.
  unfold save_image, try_except, bind, emit, eval, _LOGGER, emit, ret. cbn.
  rewrite Hopen. cbn. unfold with_trace. cbn. by rewrite <- app_assoc.
Qed.

(** A decoded picture with a save directory and successful writes. *)
Lemma save_image_decoded env image m img dir :
  Image_open env image = Return img ->
  _save_file_folder (self m) = Some dir ->
  Image_save env img (latest_path dir (self m)) = None ->
  (_save_timestamped_file (self m) = true ->
   Image_save env img (stamped_path dir (self m) (py_str (_last_detection (self m)))) = None) ->
  save_image env image m =
  (Return tt,
   {| self := self m; heap := heap m;
      files :=
        if _save_timestamped_file (self m)
        then <[stamped_path dir (self m) (py_str (_last_detection (self m))) := img]>
               (<[latest_path dir (self m) := img]> (files m))
        else <[latest_path dir (self m) := img]> (files m);
      trace :=
        trace m ++ EOpen image :: ESave (latest_path dir (self m)) img ::
          (if _save_timestamped_file (self m)
           then [ESave (stamped_path dir (self m) (py_str (_last_detection (self m)))) img;
                 ELog INFO "platerecognizer saved file %s"
                   (ArgPath (stamped_path dir (self m) (py_str (_last_detection (self m)))))]
           else []) |}).
Proof.
  intros Hopen Hdir Hlatest Hstamped.
  unfold save_image, try_except, bind at 1 2 3, emit, eval, ret. cbn.
  rewrite Hopen. cbn.
  unfold bind at 1 2, get_field. cbn. rewrite for_each_pass.
  unfold bind, get_field, eval, img_save, path_div, _LOGGER, emit. cbn.
  rewrite Hdir. cbn. fold (latest_path dir (self m)). rewrite Hlatest. cbn.
  destruct (_save_timestamped_file (self m)) eqn:Hts; cbn.
  - fold (stamped_path dir (self m) (py_str (_last_detection (self m)))).
    rewrite Hstamped by done.
    unfold with_trace, with_files. cbn. by rewrite <- !app_assoc.
  - unfold ret, with_trace, with_files. cbn. by rewrite <- !app_assoc.
Qed.

(** Whatever happens, [save_image] starts by decoding, keeps the fields and
    the heap, fires no event and sends no request. *)
Lemma save_image_frame env image m :
  ∃ o files' es,
    save_image env image m =
    (o, {| self := self m; heap := heap m; files := files';
           trace := trace m ++ EOpen image :: es |}) ∧
    fired es = [] ∧ opened es = [] ∧ fetched es = [].
Proof.
  unfold save_image, try_except, bind at 1 2 3, emit, eval, ret, _LOGGER, emit. cbn.
  destruct (Image_open env image) as [img|exc] eqn:Hopen; cbn.
  2:{ destruct (is_UnidentifiedImageError exc); cbn;
      unfold with_trace; cbn; rewrite <- ?app_assoc; cbn; eauto 10. }
  unfold bind at 1 2, get_field. cbn. rewrite for_each_pass.
  unfold bind, get_field, eval, img_save, path_div, _LOGGER, emit. cbn.
  destruct (_save_file_folder (self m)) as [dir|]; cbn;
    [|unfold with_trace; cbn; eauto 10].
  destruct (Image_save env img _) as [exc|]; cbn;
    [unfold with_trace; cbn; eauto 10|].
  destruct (_save_timestamped_file (self m)); cbn.
  - destruct (Image_save env img _) as [exc|]; cbn;
      unfold with_trace, with_files; cbn; rewrite <- ?app_assoc; cbn; eauto 10.
  - unfold ret, with_trace, with_files; cbn; rewrite <- ?app_assoc; cbn; eauto 10.
Qed.

Lemma persistence_skip env image m n :
  _state (self m) = Some n ->
  save_wanted (self m) = false ->
  persistence env image m = (Return tt, m).
Proof.
  intros Hstate Hwanted. unfold save_wanted in Hwanted. rewrite Hstate in Hwanted.
  unfold persistence, bind, get_field, eval. cbn.
  destruct (_save_file_folder (self m)); [|done].
  rewrite Hstate. cbn. by rewrite Hwanted.
Qed.

Lemma persistence_save env image m :
  save_wanted (self m) = true ->
  persistence env image m = save_image env image m.
Proof.
  unfold save_wanted. intros Hwanted.
  unfold persistence, bind, get_field, eval. cbn.
  destruct (_save_file_folder (self m)); [|done].
  destruct (_state (self m)); [|done]. cbn. rewrite Hwanted.
  by destruct (save_image env image m) as [[[]|]].
Qed.

(** ** [process_image] and [__init__] as a whole *)

(** [process_image] is its four blocks in sequence, then the statistics. *)
Lemma process_image_phases env image m :
  process_image env image m =
  (reset ;; recognition env image ;; notification env ;;
   persistence env image ;; get_statistics env) m.
Proof.
  unfold process_image, reset, notification, persistence.
  fold (recognition env image).
  unfold bind, assign, alloc, get_field, eval. cbn.
  destruct (recognition env image _) as [[[]|e] m1]; [|reflexivity].
  cbn.
  repeat (first [reflexivity | split_match; cbn]).
Qed.

Lemma reset_run m :
  reset m =
  (Return tt,
   {| self := set_vehicles [length (heap m)] (set_results (PDict ∅) (self m));
      heap := heap m ++ [∅]; files := files m; trace := trace m |}).
Proof. reflexivity. Qed.

(** Lines 110-132 on a well-formed response with the entries [fs]. *)
Lemma process_image_recognised env image m results entries fs :
  recognised env image (_headers (self m)) results entries fs ->
  process_image env image m =
  (persistence env image ;; get_statistics env)
    {| self := detected_entity env (self m) results (seq (S (length (heap m))) (length fs));
       heap := heap m ++ ∅ :: (record_of <$> fs) ++
                 (payload_of (entity_id (self m)) <$> (record_of <$> fs));
       files := files m;
       trace := trace m ++ EPost PLATE_READER_URL image (_headers (self m)) ::
                  (EFire EVENT_VEHICLE_DETECTED <$>
                     seq (S (length (heap m)) + length fs) (length fs)) |}.
Proof.
  intros Hrec. rewrite process_image_phases.
  rewrite (bind_return _ _ _ _ _ (reset_run m)).
  erewrite bind_return by (eapply recognition_ok; exact Hrec).
  cbn [self heap files trace].
  erewrite bind_return.
  2:{ apply notification_run with (ds := record_of <$> fs). cbn.
      pose proof (fresh_block (record_of <$> fs) (heap m ++ [∅])) as Hfresh.
      by rewrite length_fmap in Hfresh. }
  f_equal. cbn. rewrite !length_app, !length_fmap, !length_seq. cbn.
  rewrite !Nat.add_1_r, <- !app_assoc. reflexivity.
Qed.

(** Lines 110-132 when the [try] body raises. *)
Lemma process_image_unrecognised env image m :
  recognition_error env image (_headers (self m)) ->
  ∃ exc r garbage,
    process_image env image m =
    (persistence env image ;; get_statistics env)
      {| self := detected_entity env (self m) r [length (heap m)];
         heap := heap m ++ ∅ :: garbage ++ [payload_of (entity_id (self m)) ∅];
         files := files m;
         trace := trace m ++
           [EPost PLATE_READER_URL image (_headers (self m));
            ELog ERROR "platerecognizer error processing image: %s" (ArgExn exc);
            EFire EVENT_VEHICLE_DETECTED (S (length (heap m)) + length garbage)] |}.
Proof.
  intros Herr. rewrite process_image_phases.
  rewrite (bind_return _ _ _ _ _ (reset_run m)).
  destruct (recognition_failed env image
              {| self := set_vehicles [length (heap m)] (set_results (PDict ∅) (self m));
                 heap := heap m ++ [∅]; files := files m; trace := trace m |} Herr)
    as (exc & r & garbage & Hrun).
  rewrite (bind_return _ _ _ _ _ Hrun).
  exists exc, r, garbage.
  cbn [self heap files trace].
  erewrite bind_return.
  2:{ apply notification_run with (ds := [∅]). cbn. constructor; [|constructor].
      rewrite <- app_assoc. by apply list_lookup_middle. }
  f_equal. cbn. rewrite !length_app. cbn.
  rewrite !Nat.add_1_r, <- !app_assoc. reflexivity.
Qed.

(** Lines 133-136: the save step runs exactly when [save_wanted], and
    neither it nor the statistics touch the heap or fire an event. *)
Lemma tail_frame env image m n :
  _state (self m) = Some n ->
  ∃ o stats files' es,
    (persistence env image ;; get_statistics env) m =
    (o, {| self := set_statistics stats (self m); heap := heap m; files := files';
           trace := trace m ++ es |}) ∧
    fired es = [] ∧
    opened es = (if save_wanted (self m) then [image] else []) ∧
    (save_wanted (self m) = false -> o = Return tt ∧ files' = files m ∧ saved es = []).
Proof.
  intros Hstate.
  destruct (save_wanted (self m)) eqn:Hwanted.
  - destruct (save_image_frame env image m) as (o & files' & es & Hsave & Hf & Ho & _).
    unfold bind. rewrite persistence_save, Hsave by done.
    destruct o as [[]|exc].
    + match goal with |- context [get_statistics env ?m1] =>
        destruct (get_statistics_frame env m1) as (stats & log & -> & Hlf & Hlo & _)
      end.
      exists (Return tt), stats, files',
        (EOpen image :: es ++ EGet STATS_URL (_headers (self m)) :: log).
      cbn. rewrite <- app_assoc. cbn. split; [done|].
      unfold fired, opened in *. rewrite !omap_app. cbn.
      unfold fired, opened in *. by rewrite Hf, Ho, Hlf, Hlo.
    + exists (Raise exc), (_statistics (self m)), files', (EOpen image :: es).
      rewrite set_statistics_same. cbn. unfold fired, opened in *. by rewrite Hf, Ho.
  - unfold bind. rewrite (persistence_skip _ _ _ n) by done.
    destruct (get_statistics_frame env m) as (stats & log & -> & Hlf & Hlo & Hls & _).
    exists (Return tt), stats, (files m), (EGet STATS_URL (_headers (self m)) :: log).
    done.
Qed.

Lemma init_run env api_token folder stamped always camera name m0 :
  __init__ env api_token folder stamped always camera name m0 =
  get_statistics env
    {| self :=
         {| _headers := {[ "Authorization" := "Token " +:+ api_token ]};
            _camera := camera;
            _name := if truthy name then py_str name
                     else "platerecognizer_" +:+ object_id camera;
            _save_file_folder := folder;
            _save_timestamped_file := stamped;
            _always_save_latest_jpg := always;
            _state := None;
            _results := PDict ∅;
            _vehicles := [length (heap m0)];
            _statistics := ∅;
            _last_detection := None;
            entity_id := entity_id (self m0) |};
       heap := heap m0 ++ [∅]; files := files m0; trace := trace m0 |}.
Proof. reflexivity. Qed.

(** Every vehicle record of the entity is a live object without the key
    [entity_id], and [last_detection] is unset or a time stamp. *)
Lemma reachable_invariant m :
  reachable m ->
  Forall (fun v => ∃ d, heap m !! v = Some d ∧ d !! ATTR_ENTITY_ID = None)
         (_vehicles (self m)) ∧
  (∀ t, _last_detection (self m) = Some t -> is_timestamp t = true).
Proof.
  induction 1 as [env api_token folder stamped always camera name m0|env image m _ [_ IH]].
  - rewrite init_run.
    match goal with |- context [get_statistics env ?m1] =>
      destruct (get_statistics_frame env m1) as (stats & log & -> & _)
    end.
    cbn. split; [|done]. constructor; [|constructor].
    exists ∅. split; [by apply list_lookup_middle|done].
  - destruct (recognition_cases env image (_headers (self m)))
      as [(results & entries & fs & Hrec)|Herr].
    + rewrite (process_image_recognised _ _ _ _ _ _ Hrec).
      match goal with |- context [(persistence env image ;; get_statistics env) ?m2] =>
        destruct (tail_frame env image m2 _ (detected_entity_state _ _ _ _))
          as (o & stats & files' & es & -> & _)
      end.
      cbn [snd self heap].
      change (_vehicles (set_statistics stats ?e)) with (_vehicles e).
      change (_last_detection (set_statistics stats ?e)) with (_last_detection e).
      pose proof (detected_entity_frame env (self m) results
                    (seq (S (length (heap m))) (length fs))) as (_&_&_&_&_&_&_&_&->&_).
      split.
      * pose proof (fresh_block (record_of <$> fs) (heap m ++ [∅])) as Hfresh.
        rewrite length_app, length_fmap, Nat.add_1_r in Hfresh. cbn in Hfresh.
        rewrite Forall2_fmap_r in Hfresh.
        apply Forall2_exists_l in Hfresh.
        eapply Forall_impl; [exact Hfresh|]. cbn.
        intros v [f Hv]. exists (record_of f). split; [|apply record_of_unmarked].
        rewrite <- app_assoc in Hv. cbn in Hv.
        rewrite app_comm_cons, app_assoc. by apply lookup_app_l_Some.
      * unfold detected_entity. destruct (seq _ _); cbn; [exact IH|].
        intros t [= <-]. apply strftime_shape.
    + destruct (process_image_unrecognised _ _ _ Herr) as (exc & r & garbage & ->).
      match goal with |- context [(persistence env image ;; get_statistics env) ?m2] =>
        destruct (tail_frame env image m2 _ (detected_entity_state _ _ _ _))
          as (o & stats & files' & es & -> & _)
      end.
      cbn. split.
      * constructor; [|constructor]. exists ∅. split; [by apply list_lookup_middle|done].
      * intros t [= <-]. apply strftime_shape.
Qed.

(** * The properties of the specification *)

(** C1 (the code departs from it).  When the POST or the reading of its
    answer raises, the exception is caught, but the entity does not come
    back to zero vehicles: the one-element list of the reset is still in
    place, so the state is 1, [last_detection] is overwritten with the
    current time, and one event is fired whose payload holds the entity's
    identifier and nothing else. *)
Theorem failed_recognition_counts_one_vehicle env image m :
  recognition_error env image (_headers (self m)) ->
  let m' := (process_image env image m).2 in
  _state (self m') = Some 1%Z ∧
  (∃ placeholder, _vehicles (self m') = [placeholder] ∧ heap m' !! placeholder = Some ∅) ∧
  _last_detection (self m') = Some (strftime DATETIME_FORMAT (dt_now env)) ∧
  ∃ l, fired (effects_since m m') = [(EVENT_VEHICLE_DETECTED, l)] ∧
       heap m' !! l = Some {[ATTR_ENTITY_ID := py_of_option (entity_id (self m'))]}.
Proof.
  intros Herr m'. subst m'.
  destruct (process_image_unrecognised _ _ _ Herr) as (exc & r & garbage & ->).
  match goal with |- context [(persistence env image ;; get_statistics env) ?m2] =>
    destruct (tail_frame env image m2 _ (detected_entity_state _ _ _ _))
      as (o & stats & files' & es & -> & Hfired & _ & _)
  end.
  cbn [snd self heap trace]. repeat split.
  - exists (length (heap m)). split; [done|]. by apply list_lookup_middle.
  - exists (S (length (heap m)) + length garbage). split.
    + erewrite effects_since_app by (cbn [trace]; by rewrite <- app_assoc).
      unfold fired in *. by rewrite omap_app, Hfired.
    + cbn. rewrite app_comm_cons, app_assoc.
      rewrite list_lookup_middle by (rewrite length_app; cbn; lia).
      unfold payload_of. by rewrite insert_empty.
Qed.

(** C1 on a run: the network is down and the state after the image is 1. *)
Lemma failed_recognition_counts_one_vehicle_witness :
  let m' := (process_image offline [] installed).2 in
  _state (self m') = Some 1%Z ∧
  _last_detection (self m') = Some "2026-03-07_09-05-00".
Proof.
  pose proof (failed_recognition_counts_one_vehicle offline [] installed
                (post_raises offline [] (_headers (self installed))
                   ConnectionError eq_refl))
    as (Hstate & _ & Hstamp & _).
  split; [exact Hstate|exact Hstamp].
Defined.





(** C4.  The save step is known by its first action, the decoding of the
    image.  In every call of [process_image] it runs at most once, and it
    runs if and only if a save directory is configured and the resulting
    state is positive or the always-save flag is set; without a save
    directory nothing is decoded and nothing is written, whatever the
    flag. *)
Theorem save_step_guard env image m :
  let m' := (process_image env image m).2 in
  let es := effects_since m m' in
  (opened es = [image] ∨ opened es = []) ∧
  (image ∈ opened es <->
   (∃ dir, _save_file_folder (self m') = Some dir) ∧
   ∃ n, _state (self m') = Some n ∧
        ((0 < n)%Z ∨ _always_save_latest_jpg (self m') = true)) ∧
  (_save_file_folder (self m) = None ->
   opened es = [] ∧ saved es = [] ∧ files m' = files m).
Proof.
  intros m' es. subst m' es.
  assert (∃ o stats files' es r vs h pre,
    process_image env image m =
      (o, {| self := set_statistics stats (detected_entity env (self m) r vs);
             heap := h; files := files'; trace := trace m ++ pre ++ es |}) ∧
    opened pre = [] ∧ saved pre = [] ∧
    opened es = (if save_wanted (detected_entity env (self m) r vs) then [image] else []) ∧
    (save_wanted (detected_entity env (self m) r vs) = false ->
     files' = files m ∧ saved es = [])) as Hrun.
  { destruct (recognition_cases env image (_headers (self m)))
      as [(results & entries & fs & Hrec)|Herr].
    - rewrite (process_image_recognised _ _ _ _ _ _ Hrec).
      match goal with |- context [(persistence env image ;; get_statistics env) ?m2] =>
        destruct (tail_frame env image m2 _ (detected_entity_state _ _ _ _))
          as (o & stats & files' & es & -> & _ & Hopened & Hskip)
      end.
      cbn [self heap files trace] in *.
      eexists o, stats, files', es, _, _, _, (_ :: _).
      rewrite <- app_assoc. split; [reflexivity|]. cbn.
      rewrite opened_fires, saved_fires. repeat split; try done; by apply Hskip.
    - destruct (process_image_unrecognised _ _ _ Herr) as (exc & r & garbage & ->).
      match goal with |- context [(persistence env image ;; get_statistics env) ?m2] =>
        destruct (tail_frame env image m2 _ (detected_entity_state _ _ _ _))
          as (o & stats & files' & es & -> & _ & Hopened & Hskip)
      end.
      cbn [self heap files trace] in *.
      eexists o, stats, files', es, _, _, _, _.
      rewrite <- app_assoc. split; [reflexivity|]. cbn.
      repeat split; try done; by apply Hskip. }
  destruct Hrun as (o & stats & files' & es & r & vs & h & pre & -> & Hpo & Hps & Hopened & Hskip).
  cbn [snd self files].
  erewrite effects_since_app by reflexivity.
  assert (Hop : opened (pre ++ es) = opened es)
    by (unfold opened in *; by rewrite omap_app, Hpo).
  assert (Hsv : saved (pre ++ es) = saved es)
    by (unfold saved in *; by rewrite omap_app, Hps).
  rewrite Hop, Hsv, Hopened.
  assert (Hw : ∀ e, save_wanted (set_statistics stats e) = save_wanted e) by done.
  rewrite <- (Hw (detected_entity _ _ _ _)), <- save_wanted_spec.
  split; [|split].
  - destruct (save_wanted _); auto.
  - destruct (save_wanted _); split; try done.
    + intros _. by apply list_elem_of_singleton.
    + by intros ?%elem_of_nil.
  - intros Hnone.
    assert (save_wanted (detected_entity env (self m) r vs) = false) as Hfalse.
    { unfold save_wanted.
      pose proof (detected_entity_frame env (self m) r vs) as (_&_&_&->&_).
      by rewrite Hnone. }
    rewrite Hw, Hfalse. destruct (Hskip Hfalse) as [-> ->]. done.
Qed.

(** C4 on a run: always-save is set, no directory is, nothing is saved. *)
Lemma save_step_guard_witness :
  opened (effects_since unsaved (process_image (answering []) [] unsaved).2) = [] ∧
  files (process_image (answering []) [] unsaved).2 = files unsaved.
Proof.
  destruct (proj2 (proj2 (save_step_guard (answering []) [] unsaved)) eq_refl)
    as (Hopened & _ & Hfiles).
  split; [exact Hopened|exact Hfiles].
Defined.

(** C5.  For a recognition response whose results list is empty,
    [process_image] leaves the state 0 and the vehicle list empty, fires no
    event and keeps [last_detection] as it was. *)
Theorem no_vehicle_no_event env image m d :
  requests_post_json env PLATE_READER_URL image (_headers (self m)) = Return (PDict d) ->
  d !! "results" = Some (PList []) ->
  let m' := (process_image env image m).2 in
  _state (self m') = Some 0%Z ∧
  _vehicles (self m') = [] ∧
  fired (effects_since m m') = [] ∧
  _last_detection (self m') = _last_detection (self m).
Proof.
  intros Hpost Hres m'. subst m'.
  assert (Hrec : recognised env image (_headers (self m)) (PList []) [] [])
    by (exists d; repeat split; by try constructor).
  rewrite (process_image_recognised _ _ _ _ _ _ Hrec).
  match goal with |- context [(persistence env image ;; get_statistics env) ?m2] =>
    destruct (tail_frame env image m2 _ (detected_entity_state _ _ _ _))
      as (o & stats & files' & es & -> & Hfired & _ & _)
  end.
  cbn [snd self heap trace]. repeat split.
  erewrite effects_since_app by (cbn; by rewrite <- app_assoc).
  cbn. exact Hfired.
Qed.

(** C5 on a run. *)
Lemma no_vehicle_no_event_witness :
  fired (effects_since installed (process_image (answering []) [] installed).2) = [].
Proof.
  refine (proj1 (proj2 (proj2 (no_vehicle_no_event (answering []) [] installed
                                 (reading []) eq_refl eq_refl)))).
Defined.






(** C8 as stated fails.  A construction with the empty string for a name
    stores the default name, not the given one; and the vehicle list is
    not empty after a construction. *)
Lemma empty_name_is_replaced :
  let r := __init__ (answering []) "token" None false false front (Some EmptyString) registered in
  _name (self r.2) ≠ EmptyString ∧ _vehicles (self r.2) ≠ [].
Proof. split; vm_compute; discriminate. Qed.

(** C8, as amended.  A construction never raises.  The stored name is the
    prefix, an underscore and the camera name when no name or the empty
    name is given, and the given name otherwise; token, camera, save
    directory and flags are stored; state and [last_detection] are unset
    and the results are empty; the statistics are requested exactly once,
    and they are empty when that request fails and the response with
    [calls_remaining] when it succeeds. *)
Theorem init_state env api_token folder stamped always camera name m0 :
  let r := __init__ env api_token folder stamped always camera name m0 in
  let headers : gmap string string := {[ "Authorization" := "Token " +:+ api_token ]} in
  r.1 = Return tt ∧
  (name = None ∨ name = Some EmptyString ->
   _name (self r.2) = "platerecognizer_" +:+ object_id camera) ∧
  (∀ s, name = Some s -> s ≠ EmptyString -> _name (self r.2) = s) ∧
  (_headers (self r.2) = headers ∧ _camera (self r.2) = camera ∧
   _save_file_folder (self r.2) = folder ∧
   _save_timestamped_file (self r.2) = stamped ∧
   _always_save_latest_jpg (self r.2) = always) ∧
  (_state (self r.2) = None ∧ _results (self r.2) = PDict ∅ ∧
   _last_detection (self r.2) = None) ∧
  fetched (effects_since m0 r.2) = [STATS_URL] ∧
  (¬ quota_known env headers -> _statistics (self r.2) = ∅) ∧
  (∀ d total used remaining,
     quota env headers d total used ->
     py_sub total used = Return remaining ->
     _statistics (self r.2) = <["calls_remaining" := remaining]> d).
Proof.
  intros r headers. subst r. rewrite init_run.
  match goal with |- context [get_statistics env ?x] => set (m1 := x) end.
  destruct (get_statistics_frame env m1) as (stats & log & Hrun & _ & _ & _ & Hfetched).
  split; [by rewrite Hrun|]. split; [|split; [|split; [|split; [|split; [|split]]]]].
  - rewrite Hrun. cbn. by intros [->| ->].
  - rewrite Hrun. cbn. intros s -> Hs. by destruct s.
  - by rewrite Hrun.
  - by rewrite Hrun.
  - rewrite Hrun. erewrite effects_since_app by reflexivity.
    cbn. unfold fetched in Hfetched. by rewrite Hfetched.
  - intros Hno. by destruct (get_statistics_failure env m1 Hno) as [exc ->].
  - intros d total used remaining Hq Hsub.
    by rewrite (get_statistics_success env m1 _ _ _ _ Hq Hsub).
Qed.

(** C8 (amended) on a run: offline, the entity is built all the same. *)
Lemma init_state_witness :
  _name (self (__init__ offline "token" None false false front None registered).2) =
  "platerecognizer_front" ∧
  _statistics (self (__init__ offline "token" None false false front None registered).2) = ∅.
Proof.
  pose proof (init_state offline "token" None false false front None registered)
    as (_ & Hname & _ & _ & _ & _ & Hstats & _).
  split; [exact (Hname (or_introl eq_refl))|].
  apply Hstats. intros (d & total & used & r & (Hget & _) & _). discriminate Hget.
Defined.

(** C9.  [fire_vehicle_detected_event] changes no object that exists when
    it is called, the record it is given included: the identifier goes
    into a fresh copy, which is what the bus receives.  So the records of
    the list that [device_state_attributes] exposes never have the key
    [entity_id], on any entity that the host can bring about. *)
Theorem vehicle_records_are_never_marked :
  (∀ m v d,
     heap m !! v = Some d ->
     let r := fire_vehicle_detected_event v m in
     r.1 = Return tt ∧
     (∀ l x, heap m !! l = Some x -> heap r.2 !! l = Some x) ∧
     self r.2 = self m ∧
     ∃ c, fired (effects_since m r.2) = [(EVENT_VEHICLE_DETECTED, c)] ∧
          heap m !! c = None ∧
          heap r.2 !! c = Some (<[ATTR_ENTITY_ID := py_of_option (entity_id (self m))]> d)) ∧
  (∀ m, reachable m ->
        ∀ records, device_state_attributes (self m) !! "vehicles" = Some (ARecords records) ->
        ∀ v, v ∈ records ->
        ∃ d, heap m !! v = Some d ∧ d !! ATTR_ENTITY_ID = None).
Proof.
  split.
  - intros m v d Hv r. subst r. rewrite (fire_run _ _ _ Hv). cbn [fst snd self heap].
    split; [done|]. split; [|split; [done|]].
    + intros l x Hl. by apply lookup_app_l_Some.
    + exists (length (heap m)). split; [|split].
      * by erewrite effects_since_app by reflexivity.
      * by apply lookup_ge_None_2.
      * by apply list_lookup_middle.
  - intros m [Hclean _]%reachable_invariant records Hattr v Hv.
    assert (records = _vehicles (self m)) as ->.
    { unfold device_state_attributes in Hattr.
      destruct (_save_file_folder (self m)); by simplify_map_eq. }
    rewrite Forall_forall in Hclean. by apply Hclean.
Qed.

(** C9 on a run after one detection. *)
Lemma vehicle_records_are_never_marked_witness :
  heap (fire_vehicle_detected_event 2 seen).2 !! 2 = heap seen !! 2 ∧
  ∃ d, heap seen !! 2 = Some d ∧ d !! ATTR_ENTITY_ID = None.
Proof.
  destruct vehicle_records_are_never_marked as [Hfire Hclean].
  split.
  - destruct (Hfire seen 2 (record_of (fields "AB12CDE")) eq_refl) as (_ & Hkept & _).
    exact (Hkept 2 (record_of (fields "AB12CDE")) eq_refl).
  - apply (Hclean seen (reach_process _ _ _ (reach_init _ _ _ _ _ _ _ _)) [2] eq_refl).
    by apply list_elem_of_singleton.
Defined.



(** * Further properties of the code *)

(** ** More about [save_image] *)

(** The decoder raises something other than [UnidentifiedImageError]:
    nothing catches it. *)
Lemma save_image_decode_error env image m exc :
  Image_open env image = Raise exc ->
  is_UnidentifiedImageError exc = false ->
  save_image env image m =
  (Raise exc,
   {| self := self m; heap := heap m; files := files m;
      trace := trace m ++ [EOpen image] |}).
Proof.
  intros Hopen Hcls.
  unfold save_image, try_except, bind, emit, eval. cbn.
  by rewrite Hopen, Hcls.
Qed.

(** The write of the latest file is refused. *)
Lemma save_image_first_write_refused env image m img dir exc :
  Image_open env image = Return img ->
  _save_file_folder (self m) = Some dir ->
  Image_save env img (latest_path dir (self m)) = Some exc ->
  save_image env image m =
  (Raise exc,
   {| self := self m; heap := heap m; files := files m;
      trace := trace m ++ [EOpen image] |}).
Proof.
  intros Hopen Hdir Hlatest.
  unfold save_image, try_except, bind at 1 2 3, emit, eval, ret. cbn.
  rewrite Hopen. cbn.
  unfold bind at 1 2, get_field. cbn. rewrite for_each_pass.
  unfold bind, get_field, eval, img_save, path_div. cbn.
  rewrite Hdir. cbn. fold (latest_path dir (self m)). by rewrite Hlatest.
Qed.

(** The latest file is written and the write of the stamped file is
    refused. *)
Lemma save_image_second_write_refused_run env image m img dir exc :
  Image_open env image = Return img ->
  _save_file_folder (self m) = Some dir ->
  _save_timestamped_file (self m) = true ->
  Image_save env img (latest_path dir (self m)) = None ->
  Image_save env img
    (stamped_path dir (self m) (py_str (_last_detection (self m)))) = Some exc ->
  save_image env image m =
  (Raise exc,
   {| self := self m; heap := heap m;
      files := <[latest_path dir (self m) := img]> (files m);
      trace := trace m ++ [EOpen image; ESave (latest_path dir (self m)) img] |}).
Proof.
  intros Hopen Hdir Hts Hlatest Hstamped.
  unfold save_image, try_except, bind at 1 2 3, emit, eval, ret. cbn.
  rewrite Hopen. cbn.
  unfold bind at 1 2, get_field. cbn. rewrite for_each_pass.
  unfold bind, get_field, eval, img_save, path_div. cbn.
  rewrite Hdir. cbn. fold (latest_path dir (self m)). rewrite Hlatest. cbn.
  rewrite Hts. cbn.
  fold (stamped_path dir (self m) (py_str (_last_detection (self m)))).
  rewrite Hstamped. unfold with_trace, with_files. cbn. by rewrite <- app_assoc.
Qed.

(** Without a save directory the path cannot be built. *)
Lemma save_image_no_folder env image m img :
  Image_open env image = Return img ->
  _save_file_folder (self m) = None ->
  save_image env image m =
  (Raise TypeError,
   {| self := self m; heap := heap m; files := files m;
      trace := trace m ++ [EOpen image] |}).
Proof.
  intros Hopen Hdir.
  unfold save_image, try_except, bind at 1 2 3, emit, eval, ret. cbn.
  rewrite Hopen. cbn.
  unfold bind at 1 2, get_field. cbn. rewrite for_each_pass.
  unfold bind, get_field, eval, img_save, path_div. cbn.
  by rewrite Hdir.
Qed.

(** Whatever happens in [save_image]: it starts by decoding, keeps fields
    and heap, fires and requests nothing; the disk is the old one with the
    recorded writes, which go to the two files of the entity; and what it
    raises comes from the decoder, from the disk, or from a missing
    directory. *)
Lemma save_image_anatomy env image m :
  ∃ o files' es,
    save_image env image m =
    (o, {| self := self m; heap := heap m; files := files';
           trace := trace m ++ EOpen image :: es |}) ∧
    (fired es = [] ∧ opened es = [] ∧ posted es = [] ∧ requested es = []) ∧
    files' = replay (saved es) (files m) ∧
    (∀ p i, (p, i) ∈ saved es ->
            Image_open env image = Return i ∧
            ∃ dir, _save_file_folder (self m) = Some dir ∧
                   (p = latest_path dir (self m) ∨
                    p = stamped_path dir (self m) (py_str (_last_detection (self m))))) ∧
    (∀ exc, o = Raise exc ->
            (Image_open env image = Raise exc ∧ is_UnidentifiedImageError exc = false) ∨
            (∃ img p, Image_save env img p = Some exc) ∨
            (_save_file_folder (self m) = None ∧ exc = TypeError)).
Proof.
  destruct (Image_open env image) as [img|exc] eqn:Hopen.
  2:{ destruct (is_UnidentifiedImageError exc) eqn:Hcls.
      - assert (exc = UnidentifiedImageError) as -> by (by destruct exc).
        rewrite (save_image_unidentified _ _ _ Hopen).
        eexists _, _, [_]. split; [reflexivity|]. cbn.
        split; [done|]. split; [done|]. split; [|done].
        by intros p i ?%elem_of_nil.
      - rewrite (save_image_decode_error _ _ _ _ Hopen Hcls).
        eexists _, _, []. split; [reflexivity|]. cbn.
        split; [done|]. split; [done|]. split; [by intros p i ?%elem_of_nil|].
        intros ? [= <-]. auto. }
  destruct (_save_file_folder (self m)) as [dir|] eqn:Hdir.
  2:{ rewrite (save_image_no_folder _ _ _ _ Hopen Hdir).
      eexists _, _, []. split; [reflexivity|]. cbn.
      split; [done|]. split; [done|]. split; [by intros p i ?%elem_of_nil|].
      intros ? [= <-]. auto. }
  destruct (Image_save env img (latest_path dir (self m))) as [exc|] eqn:Hlatest.
  { rewrite (save_image_first_write_refused _ _ _ _ _ _ Hopen Hdir Hlatest).
    eexists _, _, []. split; [reflexivity|]. cbn.
    split; [done|]. split; [done|]. split; [by intros p i ?%elem_of_nil|].
    intros ? [= <-]. eauto. }
  destruct (_save_timestamped_file (self m)) eqn:Hts.
  - destruct (Image_save env img
                (stamped_path dir (self m) (py_str (_last_detection (self m)))))
      as [exc|] eqn:Hstamped.
    + rewrite (save_image_second_write_refused_run _ _ _ _ _ _
                 Hopen Hdir Hts Hlatest Hstamped).
      eexists _, _, [_]. split; [reflexivity|]. cbn.
      split; [done|]. split; [done|]. split.
      * intros p i [= -> ->]%list_elem_of_singleton. eauto.
      * intros ? [= <-]. eauto.
    + rewrite (save_image_decoded _ _ _ _ _ Hopen Hdir Hlatest (fun _ => Hstamped)).
      rewrite Hts.
      eexists _, _, [_; _; _]. split; [reflexivity|]. cbn.
      split; [done|]. split; [done|]. split; [|done].
      intros p i [[= -> ->]|[= -> ->]%list_elem_of_singleton]%elem_of_cons; eauto.
  - rewrite (save_image_decoded _ _ _ _ _ Hopen Hdir Hlatest); [|by rewrite Hts].
    rewrite Hts.
    eexists _, _, [_]. split; [reflexivity|]. cbn.
    split; [done|]. split; [done|]. split; [|done].
    intros p i [= -> ->]%list_elem_of_singleton. eauto.
Qed.

(** ** More about [get_statistics] and the end of [process_image] *)

(** One call of [get_statistics] from end to end. *)
Lemma get_statistics_anatomy env m :
  ∃ stats log,
    get_statistics env m =
    (Return tt,
     {| self := set_statistics stats (self m); heap := heap m; files := files m;
        trace := trace m ++ EGet STATS_URL (_headers (self m)) :: log |}) ∧
    ((quota_known env (_headers (self m)) ∧ log = []) ∨
     (¬ quota_known env (_headers (self m)) ∧ stats = _statistics (self m) ∧
      ∃ exc, log = [ELog ERROR "platerecognizer error getting statistics: %s"
                         (ArgExn exc)])).
Proof.
  destruct (quota_cases env (_headers (self m))) as [Hyes|Hno].
  - destruct Hyes as (d & total & used & r & Hq & Hsub) eqn:E.
    exists (<["calls_remaining" := r]> d), [].
    rewrite (get_statistics_success _ _ _ _ _ _ Hq Hsub). split; [done|]. by left.
  - destruct (get_statistics_failure _ _ Hno) as [exc ->].
    exists (_statistics (self m)),
      [ELog ERROR "platerecognizer error getting statistics: %s" (ArgExn exc)].
    rewrite set_statistics_same. split; [done|]. right. eauto.
Qed.

(** Lines 133-136 from end to end, from a state [n]. *)
Lemma tail_anatomy env image m n :
  _state (self m) = Some n ->
  ∃ o stats files' es,
    (persistence env image ;; get_statistics env) m =
    (o, {| self := set_statistics stats (self m); heap := heap m; files := files';
           trace := trace m ++ es |}) ∧
    (fired es = [] ∧ posted es = []) ∧
    requested es = (if o is Return _ then [(STATS_URL, _headers (self m))] else []) ∧
    (∀ exc, o = Raise exc ->
            stats = _statistics (self m) ∧ save_wanted (self m) = true ∧
            ((Image_open env image = Raise exc ∧ is_UnidentifiedImageError exc = false) ∨
             (∃ img p, Image_save env img p = Some exc))) ∧
    files' = replay (saved es) (files m) ∧
    (∀ p i, (p, i) ∈ saved es ->
            save_wanted (self m) = true ∧
            Image_open env image = Return i ∧
            ∃ dir, _save_file_folder (self m) = Some dir ∧
                   (p = latest_path dir (self m) ∨
                    p = stamped_path dir (self m) (py_str (_last_detection (self m))))).
Proof.
  intros Hstate.
  destruct (save_wanted (self m)) eqn:Hwanted.
  - destruct (save_image_anatomy env image m)
      as (o & files' & es & Hsave & (Hf & _ & Hp & Hr) & Hdisk & Hpaths & Hexc).
    unfold bind. rewrite persistence_save, Hsave by done.
    destruct o as [[]|exc].
    + match goal with |- context [get_statistics env ?m1] =>
        destruct (get_statistics_anatomy env m1) as (stats & log & -> & Hlog)
      end.
      exists (Return tt), stats, files',
        (EOpen image :: es ++ EGet STATS_URL (_headers (self m)) :: log).
      cbn [self heap files trace]. rewrite <- app_assoc. cbn.
      split; [done|].
      assert (fired log = [] ∧ posted log = [] ∧ requested log = [] ∧ saved log = [])
        as (Hlf & Hlp & Hlr & Hls).
      { destruct Hlog as [[_ ->]|(_ & _ & exc & ->)]; done. }
      unfold fired, posted, requested, saved in *.
      rewrite !omap_app. cbn. rewrite Hf, Hp, Hr, Hlf, Hlp, Hlr, Hls, !app_nil_r.
      unfold replay in *.
      split; [done|]. split; [done|]. split; [done|]. split; [done|].
      intros p i Hin. split; [done|]. by apply Hpaths.
    + exists (Raise exc), (_statistics (self m)), files', (EOpen image :: es).
      rewrite set_statistics_same. cbn.
      split; [done|]. split; [done|]. split; [done|]. split; [|split; [done|]].
      * intros ? [= <-]. split; [done|]. split; [done|].
        destruct (Hexc exc eq_refl) as [?|[?|[Hnone _]]]; auto.
        unfold save_wanted in Hwanted. by rewrite Hnone in Hwanted.
      * intros p i Hin. split; [done|]. by apply Hpaths.
  - unfold bind. rewrite (persistence_skip _ _ _ n) by done.
    destruct (get_statistics_anatomy env m) as (stats & log & -> & Hlog).
    exists (Return tt), stats, (files m), (EGet STATS_URL (_headers (self m)) :: log).
    assert (fired log = [] ∧ posted log = [] ∧ requested log = [] ∧ saved log = [])
      as (Hlf & Hlp & Hlr & Hls).
    { destruct Hlog as [[_ ->]|(_ & _ & exc & ->)]; done. }
    cbn [fst snd self heap files trace].
    unfold fired, posted, requested, saved in *. cbn.
    rewrite Hlf, Hlp, Hlr, Hls. cbn.
    split; [done|]. split; [done|]. split; [done|]. split; [done|]. split; [done|].
    by intros p i ?%elem_of_nil.
Qed.

(** ** Lines 110-132 of [process_image], whatever the service answers *)

(** The reset, the [try] statement and the events, in one step. *)
Lemma process_image_middle env image m :
  ∃ r vs added log j k,
    process_image env image m =
      (persistence env image ;; get_statistics env)
        {| self := detected_entity env (self m) r vs;
           heap := heap m ++ added; files := files m;
           trace := trace m ++ EPost PLATE_READER_URL image (_headers (self m)) ::
                      log ++ (EFire EVENT_VEHICLE_DETECTED <$> seq k (length vs)) |} ∧
    (log = [] ∨
     ∃ exc, log = [ELog ERROR "platerecognizer error processing image: %s" (ArgExn exc)]) ∧
    vs = seq j (length vs) ∧ length (heap m) ≤ j ∧
    (∀ i, i < length vs ->
          ∃ d, (heap m ++ added) !! (j + i) = Some d ∧
               d !! ATTR_ENTITY_ID = None ∧
               (heap m ++ added) !! (k + i) =
                 Some (payload_of (entity_id (self m)) d)).
Proof.
  destruct (recognition_cases env image (_headers (self m)))
    as [(results & entries & fs & Hrec)|Herr].
  - rewrite (process_image_recognised _ _ _ _ _ _ Hrec).
    exists results, (seq (S (length (heap m))) (length fs)),
      (∅ :: (record_of <$> fs) ++ (payload_of (entity_id (self m)) <$> (record_of <$> fs))),
      [], (S (length (heap m))), (S (length (heap m)) + length fs).
    rewrite length_seq. split; [done|]. split; [by left|]. split; [done|]. split; [lia|].
    intros i Hi. destruct (lookup_lt_is_Some_2 fs i Hi) as [f Hf].
    exists (record_of f). split; [|split; [done|]].
    + rewrite lookup_app_r by lia.
      replace (S (length (heap m)) + i - length (heap m)) with (S i) by lia.
      rewrite lookup_cons.
      rewrite lookup_app_l by (by rewrite length_fmap).
      by rewrite list_lookup_fmap, Hf.
    + rewrite lookup_app_r by lia.
      replace (S (length (heap m)) + length fs + i - length (heap m))
        with (S (length fs + i)) by lia.
      rewrite lookup_cons.
      rewrite lookup_app_r by (rewrite length_fmap; lia).
      rewrite length_fmap. replace (length fs + i - length fs) with i by lia.
      by rewrite !list_lookup_fmap, Hf.
  - destruct (process_image_unrecognised _ _ _ Herr) as (exc & r & garbage & ->).
    exists r, [length (heap m)], (∅ :: garbage ++ [payload_of (entity_id (self m)) ∅]),
      [ELog ERROR "platerecognizer error processing image: %s" (ArgExn exc)],
      (length (heap m)), (S (length (heap m)) + length garbage).
    split; [done|]. split; [eauto|]. split; [done|]. split; [lia|].
    intros i Hi. cbn in Hi. assert (i = 0) as -> by lia.
    exists ∅. rewrite !Nat.add_0_r. split; [by apply list_lookup_middle|]. split; [done|].
    rewrite app_comm_cons, app_assoc.
    apply list_lookup_middle. rewrite length_app. cbn. lia.
Qed.

(** The file names do not depend on what lines 110-132 assign. *)
Lemma detected_entity_paths env e r vs dir stamp :
  latest_path dir (detected_entity env e r vs) = latest_path dir e ∧
  stamped_path dir (detected_entity env e r vs) stamp = stamped_path dir e stamp.
Proof. by destruct vs. Qed.

(** One call of [process_image] from end to end. *)
Lemma process_image_anatomy env image m :
  ∃ r vs added log j k o stats files' es,
    let e2 := detected_entity env (self m) r vs in
    process_image env image m =
      (o, {| self := set_statistics stats e2;
             heap := heap m ++ added; files := files';
             trace := trace m ++ EPost PLATE_READER_URL image (_headers (self m)) ::
                        log ++ (EFire EVENT_VEHICLE_DETECTED <$> seq k (length vs)) ++ es |}) ∧
    (log = [] ∨
     ∃ exc, log = [ELog ERROR "platerecognizer error processing image: %s" (ArgExn exc)]) ∧
    (vs = seq j (length vs) ∧ length (heap m) ≤ j) ∧
    (∀ i, i < length vs ->
          ∃ d, (heap m ++ added) !! (j + i) = Some d ∧
               d !! ATTR_ENTITY_ID = None ∧
               (heap m ++ added) !! (k + i) =
                 Some (payload_of (entity_id (self m)) d)) ∧
    (fired es = [] ∧ posted es = []) ∧
    requested es = (if o is Return _ then [(STATS_URL, _headers (self m))] else []) ∧
    (∀ exc, o = Raise exc ->
            stats = _statistics (self m) ∧ save_wanted e2 = true ∧
            ((Image_open env image = Raise exc ∧ is_UnidentifiedImageError exc = false) ∨
             (∃ img p, Image_save env img p = Some exc))) ∧
    files' = replay (saved es) (files m) ∧
    (∀ p i, (p, i) ∈ saved es ->
            save_wanted e2 = true ∧
            Image_open env image = Return i ∧
            ∃ dir, _save_file_folder (self m) = Some dir ∧
                   (p = latest_path dir (self m) ∨
                    p = stamped_path dir (self m) (py_str (_last_detection e2)))).
Proof.
  destruct (process_image_middle env image m)
    as (r & vs & added & log & j & k & -> & Hlog & Hvs & Hj & Hheap).
  match goal with |- context [(persistence env image ;; get_statistics env) ?m2] =>
    destruct (tail_anatomy env image m2 _ (detected_entity_state _ _ _ _))
      as (o & stats & files' & es & -> & Hquiet & Hreq & Hexc & Hdisk & Hpaths)
  end.
  cbn [self heap files trace] in *.
  pose proof (detected_entity_frame env (self m) r vs)
    as (Hh & _ & _ & Hfolder & _ & _ & Hstats & _).
  rewrite Hh in Hreq. rewrite Hstats in Hexc.
  exists r, vs, added, log, j, k, o, stats, files', es. cbn zeta.
  split; [by rewrite <- app_assoc, <- app_comm_cons, <- app_assoc|].
  split; [done|]. split; [done|]. split; [done|]. split; [done|]. split; [done|].
  split; [done|]. split; [done|].
  intros p i Hin. destruct (Hpaths p i Hin) as (Hw & Hopen & dir & Hdir & Hp).
  split; [done|]. split; [done|]. exists dir. rewrite Hfolder in Hdir. split; [done|].
  by rewrite !(proj1 (detected_entity_paths _ _ _ _ _ EmptyString)),
       !(proj2 (detected_entity_paths _ _ _ _ _ _)) in Hp.
Qed.

(** ** What a call of [process_image] does *)

Lemma fired_app es es' : fired (es ++ es') = fired es ++ fired es'.
Proof. apply omap_app. Qed.

Lemma posted_app es es' : posted (es ++ es') = posted es ++ posted es'.
Proof. apply omap_app. Qed.

Lemma requested_app es es' : requested (es ++ es') = requested es ++ requested es'.
Proof. apply omap_app. Qed.

Lemma saved_app es es' : saved (es ++ es') = saved es ++ saved es'.
Proof. apply omap_app. Qed.

Lemma posted_fires n (ls : list loc) : posted (EFire n <$> ls) = [].
Proof. by induction ls. Qed.

Lemma requested_fires n (ls : list loc) : requested (EFire n <$> ls) = [].
Proof. by induction ls. Qed.

(** A log record is no request, event or write. *)
Lemma error_log_is_silent log msg :
  (log = [] ∨ ∃ exc, log = [ELog ERROR msg (ArgExn exc)]) ->
  fired log = [] ∧ posted log = [] ∧ requested log = [] ∧ saved log = [].
Proof. by intros [->|[exc ->]]. Qed.


(** The events of a call are as many as its state, one marked copy each. *)
Lemma events_of_a_call env image m :
  let m' := (process_image env image m).2 in
  let events := fired (effects_since m m') in
  _state (self m') = Some (Z.of_nat (length events)) ∧
  Forall (fun ev =>
            ev.1 = EVENT_VEHICLE_DETECTED ∧
            ∃ p, heap m' !! ev.2 = Some p ∧
                 p !! ATTR_ENTITY_ID = Some (py_of_option (entity_id (self m'))))
         events.
Proof.
  intros m' events. subst m' events.
  destruct (process_image_anatomy env image m)
    as (r & vs & added & log & j & k & o & stats & files' & es & Hrun
        & Hlog%error_log_is_silent & _ & Hheap & [Hf _] & _).
  cbn zeta in Hrun. rewrite Hrun. cbn [snd self heap].
  erewrite effects_since_app by reflexivity.
  destruct Hlog as (Hlf & _).
  change (fired (?a :: ?l)) with (fired l).
  rewrite !fired_app, Hlf, Hf, app_nil_r, fired_fires. cbn [app].
  rewrite length_fmap, length_seq.
  split; [apply detected_entity_state|].
  apply Forall_fmap, Forall_seq. intros i [Hk Hi]. cbn.
  split; [done|].
  destruct (Hheap (i - k)) as (d & _ & _ & Hp); [lia|].
  replace (k + (i - k)) with i in Hp by lia.
  exists (payload_of (entity_id (self m)) d). split; [done|].
  pose proof (detected_entity_frame env (self m) r vs) as (_&_&_&_&_&_&_&Heid&_).
  change (entity_id (set_statistics stats ?e)) with (entity_id e). rewrite Heid.
  apply lookup_insert_eq.
Qed.


(** [last_detection] moves only forward: a call that ends with a positive
    state stamps it with the current time, a call that ends with state 0
    leaves it alone, and no call clears it. *)
Theorem last_detection_moves_forward env image m :
  let m' := (process_image env image m).2 in
  (∃ n, _state (self m') = Some n ∧ (0 <= n)%Z ∧
        ((0 < n)%Z ->
         _last_detection (self m') = Some (strftime DATETIME_FORMAT (dt_now env))) ∧
        (n = 0%Z -> _last_detection (self m') = _last_detection (self m))) ∧
  (is_Some (_last_detection (self m)) -> is_Some (_last_detection (self m'))).
Proof.
  intros m'. subst m'.
  destruct (process_image_anatomy env image m)
    as (r & vs & added & log & j & k & o & stats & files' & es & Hrun & _).
  cbn zeta in Hrun. rewrite Hrun. cbn [snd self].
  change (_state (set_statistics stats ?e)) with (_state e).
  change (_last_detection (set_statistics stats ?e)) with (_last_detection e).
  rewrite detected_entity_state. unfold detected_entity.
  destruct vs as [|v vs]; cbn [length _last_detection set_last_detection set_state
                               set_vehicles set_results].
  - split; [|done]. exists 0%Z. split; [done|]. split; [lia|]. split; [lia|done].
  - split; [|by eauto]. eexists. split; [done|]. split; [lia|]. split; [done|lia].
Qed.

(** On a run: one vehicle in the morning. *)
Lemma last_detection_moves_forward_witness :
  _last_detection (self (process_image (answering [entry "AB12CDE"]) [] installed).2) =
  Some "2026-03-07_09-05-00".
Proof.
  destruct (proj1 (last_detection_moves_forward (answering [entry "AB12CDE"]) [] installed))
    as (n & Hn & _ & Hpos & _).
  injection Hn as <-. apply Hpos. reflexivity.
Defined.

(** A call only allocates: every object that exists before it is the same
    after it, and the vehicle list after it is made of different objects,
    all new, as many as the state says. *)
Theorem process_image_only_allocates env image m :
  let m' := (process_image env image m).2 in
  (∀ l x, heap m !! l = Some x -> heap m' !! l = Some x) ∧
  NoDup (_vehicles (self m')) ∧
  Forall (fun v => heap m !! v = None ∧ is_Some (heap m' !! v)) (_vehicles (self m')) ∧
  _state (self m') = Some (Z.of_nat (length (_vehicles (self m')))).
Proof.
  intros m'. subst m'.
  destruct (process_image_anatomy env image m)
    as (r & vs & added & log & j & k & o & stats & files' & es & Hrun
        & _ & [Hvs Hj] & Hheap & _).
  cbn zeta in Hrun. rewrite Hrun. cbn [snd self heap].
  change (_state (set_statistics stats ?e)) with (_state e).
  change (_vehicles (set_statistics stats ?e)) with (_vehicles e).
  pose proof (detected_entity_frame env (self m) r vs) as (_&_&_&_&_&_&_&_&->&_).
  split; [|split; [|split]].
  - intros l x Hl. by apply lookup_app_l_Some.
  - rewrite Hvs. apply NoDup_seq.
  - rewrite Hvs at 1. apply Forall_seq. intros v [Hlo Hhi]. split.
    + apply lookup_ge_None_2. lia.
    + destruct (Hheap (v - j)) as (d & Hd & _); [lia|].
      replace (j + (v - j)) with v in Hd by lia. by eexists.
  - apply detected_entity_state.
Qed.

(** On a run: the record of the first image is still there after the
    second. *)
Lemma process_image_only_allocates_witness :
  heap (process_image (answering [entry "AB12CDE"]) [] seen).2 !! 2 =
  Some (<[ATTR_VEHICLE_TYPE := PStr "Car"]>
          (<[ATTR_REGION_CODE := PStr "gb"]>
             (<[ATTR_CONFIDENCE := f_score (fields "AB12CDE")]>
                (<[ATTR_PLATE := PStr "AB12CDE"]> ∅)))).
Proof.
  apply (proj1 (process_image_only_allocates (answering [entry "AB12CDE"]) [] seen)).
  reflexivity.
Defined.

(** The requests of a call: the POST of the image comes first and is the
    only one; the statistics are requested once, with the same headers,
    when the call returns, and not at all when it raises. *)
Theorem process_image_requests env image m :
  let r := process_image env image m in
  ∃ rest,
    effects_since m r.2 =
      EPost PLATE_READER_URL image (_headers (self m)) :: rest ∧
    posted rest = [] ∧
    requested rest =
      (if r.1 is Return _ then [(STATS_URL, _headers (self m))] else []).
Proof.
  intros res. subst res.
  destruct (process_image_anatomy env image m)
    as (r & vs & added & log & j & k & o & stats & files' & es & Hrun
        & Hlog%error_log_is_silent & _ & _ & [_ Hp] & Hreq & _).
  cbn zeta in Hrun. rewrite Hrun. cbn [fst snd].
  erewrite effects_since_app by reflexivity.
  eexists. split; [reflexivity|].
  destruct Hlog as (_ & Hlp & Hlr & _).
  by rewrite !posted_app, !requested_app, Hlp, Hlr, Hp, Hreq,
       posted_fires, requested_fires.
Qed.

(** What [process_image] raises comes from the save step: a save directory
    is set and the decoder raised something other than
    [UnidentifiedImageError], or the disk refused a write.  Without a save
    directory the call returns, whatever the network answers. *)
Theorem process_image_raises_only_from_saving env image m :
  (∀ exc, (process_image env image m).1 = Raise exc ->
          is_Some (_save_file_folder (self m)) ∧
          ((Image_open env image = Raise exc ∧ exc ≠ UnidentifiedImageError) ∨
           (∃ img p, Image_save env img p = Some exc))) ∧
  (_save_file_folder (self m) = None -> (process_image env image m).1 = Return tt).
Proof.
  destruct (process_image_anatomy env image m)
    as (r & vs & added & log & j & k & o & stats & files' & es & Hrun
        & _ & _ & _ & _ & _ & Hexc & _).
  cbn zeta in Hrun. rewrite Hrun. cbn [fst].
  pose proof (detected_entity_frame env (self m) r vs) as (_&_&_&Hfolder&_).
  assert (Hfirst : ∀ exc, o = Raise exc ->
            is_Some (_save_file_folder (self m)) ∧
            ((Image_open env image = Raise exc ∧ exc ≠ UnidentifiedImageError) ∨
             (∃ img p, Image_save env img p = Some exc))).
  { intros exc Ho. destruct (Hexc exc Ho) as (_ & Hwanted & Hwhy). split.
    - unfold save_wanted in Hwanted. rewrite Hfolder in Hwanted.
      by destruct (_save_file_folder (self m)).
    - destruct Hwhy as [[Hopen Hcls]|?]; [left|by right].
      split; [done|]. by intros ->. }
  split; [done|]. intros Hnone. destruct o as [[]|exc]; [done|].
  destruct (Hfirst exc eq_refl) as [[? Hsome] _]. congruence.
Qed.

(** On a run: no network, no save directory, and the call returns. *)
Lemma process_image_raises_only_from_saving_witness :
  (process_image offline [] unsaved).1 = Return tt.
Proof.
  apply (proj2 (process_image_raises_only_from_saving offline [] unsaved)).
  reflexivity.
Defined.

(** When [process_image] raises, the statistics are neither requested nor
    changed; the state and the events of the image stand. *)
Theorem failed_save_skips_statistics env image m exc :
  (process_image env image m).1 = Raise exc ->
  let m' := (process_image env image m).2 in
  requested (effects_since m m') = [] ∧
  _statistics (self m') = _statistics (self m) ∧
  _state (self m') = Some (Z.of_nat (length (fired (effects_since m m')))).
Proof.
  intros Hraise m'. subst m'.
  split; [|split; [|apply events_of_a_call]].
  - revert Hraise.
    destruct (process_image_anatomy env image m)
      as (r & vs & added & log & j & k & o & stats & files' & es & Hrun
          & Hlog%error_log_is_silent & _ & _ & _ & Hreq & _).
    cbn zeta in Hrun. rewrite Hrun. cbn [fst snd]. intros ->.
    erewrite effects_since_app by reflexivity.
    destruct Hlog as (_ & _ & Hlr & _).
    change (requested (?a :: ?l)) with (requested l).
    by rewrite !requested_app, Hlr, Hreq, requested_fires.
  - revert Hraise.
    destruct (process_image_anatomy env image m)
      as (r & vs & added & log & j & k & o & stats & files' & es & Hrun
          & _ & _ & _ & _ & _ & Hexc & _).
    cbn zeta in Hrun. rewrite Hrun. cbn [fst snd self]. intros Ho.
    by destruct (Hexc exc Ho) as (-> & _).
Qed.

(** On a run: the disk refuses the write, no statistics are requested. *)
Lemma failed_save_skips_statistics_witness :
  requested (effects_since installed (process_image read_only [] installed).2) = [].
Proof.
  apply (failed_save_skips_statistics read_only [] installed OSError).
  reflexivity.
Defined.



(** ** Results that cannot be turned into vehicles *)

(** The [try] statement on results that are no list of well-formed
    entries. *)
Lemma recognition_unreadable env image m response results :
  requests_post_json env PLATE_READER_URL image (_headers (self m)) = Return response ->
  getitem response "results" = Return results ->
  ((∃ exc, iter results = Raise exc) ∨
   (∃ entries, iter results = Return entries ∧ ¬ ∃ fs, Forall2 has_fields entries fs)) ->
  ∃ exc garbage,
    recognition env image m =
    (Return tt,
     {| self := set_results results (self m);
        heap := heap m ++ garbage;
        files := files m;
        trace := trace m ++ [EPost PLATE_READER_URL image (_headers (self m));
                             ELog ERROR "platerecognizer error processing image: %s"
                                  (ArgExn exc)] |}).
Proof.
  intros Hpost Hres Hbad.
  unfold recognition, try_except, bind at 1 2 3 4 5 6, get_field, emit, eval, assign,
    _LOGGER, emit.
  cbn. rewrite Hpost. cbn. rewrite Hres.
  destruct Hbad as [[exc Hiter]|(entries & Hiter & Hno)]; rewrite Hiter.
  - exists exc, []. rewrite app_nil_r. fail_case.
  - match goal with |- context [bind (comprehension entries vehicle_record) _ ?m1] =>
      destruct (comprehension_failed entries m1 Hno) as (exc & garbage & Hexc)
    end.
    erewrite bind_raise by exact Hexc. cbn.
    exists exc, garbage. fail_case.
Qed.

(** A list with a malformed entry is not a list of well-formed entries. *)
Lemma bad_entry_spoils_the_list entries r :
  r ∈ entries -> (∀ f, ¬ has_fields r f) -> ¬ ∃ fs, Forall2 has_fields entries fs.
Proof.
  intros [i Hi]%list_elem_of_lookup Hbad [fs Hfs].
  destruct (Forall2_lookup_l _ _ _ _ _ Hfs Hi) as (f & _ & Hf). by apply (Hbad f).
Qed.

(** One entry without one of the four fields discards the whole response:
    the results are stored, but none of its entries becomes a vehicle; the
    vehicle list is the one-element list of the reset and the state is 1. *)
Theorem one_bad_entry_discards_all env image m d entries bad :
  requests_post_json env PLATE_READER_URL image (_headers (self m)) = Return (PDict d) ->
  d !! "results" = Some (PList entries) ->
  bad ∈ entries ->
  (∀ f, ¬ has_fields bad f) ->
  let m' := (process_image env image m).2 in
  _results (self m') = PList entries ∧
  _state (self m') = Some 1%Z ∧
  ∃ placeholder, _vehicles (self m') = [placeholder] ∧ heap m' !! placeholder = Some ∅.
Proof.
  intros Hpost Hres Hin Hbad m'. subst m'.
  rewrite process_image_phases.
  rewrite (bind_return _ _ _ _ _ (reset_run m)).
  edestruct (recognition_unreadable env image
              {| self := set_vehicles [length (heap m)] (set_results (PDict ∅) (self m));
                 heap := heap m ++ [∅]; files := files m; trace := trace m |})
    as (exc & garbage & Hrun).
  { exact Hpost. }
  { cbn. by rewrite Hres. }
  { right. exists entries. split; [done|]. by eapply bad_entry_spoils_the_list. }
  rewrite (bind_return _ _ _ _ _ Hrun).
  cbn [self heap files trace].
  erewrite bind_return.
  2:{ apply notification_run with (ds := [∅]). cbn. constructor; [|constructor].
      rewrite <- app_assoc. by apply list_lookup_middle. }
  match goal with |- context [(persistence env image ;; get_statistics env) ?m2] =>
    destruct (tail_frame env image m2 1%Z eq_refl)
      as (o & stats & files' & es & -> & _)
  end.
  cbn. split; [done|]. split; [done|].
  exists (length (heap m)). split; [done|].
  rewrite <- !app_assoc. by apply list_lookup_middle.
Qed.

(** On a run: a good entry and one without region and vehicle. *)
Lemma one_bad_entry_discards_all_witness :
  _state (self (process_image (answering [entry "AB12CDE"; partial_entry]) [] installed).2) =
  Some 1%Z.
Proof.
  refine (proj1 (proj2 (one_bad_entry_discards_all
            (answering [entry "AB12CDE"; partial_entry]) [] installed
            (reading [entry "AB12CDE"; partial_entry])
            [entry "AB12CDE"; partial_entry] partial_entry eq_refl eq_refl _ _))).
  - rewrite !elem_of_cons. right. by left.
  - intros f (_ & _ & (region & Hregion & _) & _). vm_compute in Hregion. discriminate Hregion.
Defined.

(** After a well-formed response the attribute [vehicles] lists one record
    per entry, in order, holding exactly the entry's plate, score, region
    code and vehicle type; [last_detection] shows the current time when
    there is a vehicle and its earlier value when there is none. *)
Theorem attributes_after_recognition env image m d entries fs :
  requests_post_json env PLATE_READER_URL image (_headers (self m)) = Return (PDict d) ->
  d !! "results" = Some (PList entries) ->
  Forall2 has_fields entries fs ->
  let m' := (process_image env image m).2 in
  let attr := device_state_attributes (self m') in
  (∃ records,
     attr !! "vehicles" = Some (ARecords records) ∧
     Forall2
       (fun l f =>
          heap m' !! l =
          Some (<[ATTR_VEHICLE_TYPE := f_vehicle_type f]>
                  (<[ATTR_REGION_CODE := f_region_code f]>
                     (<[ATTR_CONFIDENCE := f_score f]>
                        (<[ATTR_PLATE := f_plate f]> ∅)))))
       records fs) ∧
  attr !! "last_detection" =
    Some (AValue (match fs with
                  | [] => py_of_option (_last_detection (self m))
                  | _ :: _ => PStr (strftime DATETIME_FORMAT (dt_now env))
                  end)).
Proof.
  intros Hpost Hres Hall m' attr. subst m' attr.
  assert (Hrec : recognised env image (_headers (self m)) (PList entries) entries fs)
    by (exists d; eauto).
  rewrite (process_image_recognised _ _ _ _ _ _ Hrec).
  match goal with |- context [(persistence env image ;; get_statistics env) ?m2] =>
    destruct (tail_frame env image m2 _ (detected_entity_state _ _ _ _))
      as (o & stats & files' & es & -> & _)
  end.
  cbn [snd self heap].
  set (e2 := detected_entity env (self m) (PList entries)
               (seq (S (length (heap m))) (length fs))).
  assert (Hvs : _vehicles (set_statistics stats e2) = seq (S (length (heap m))) (length fs)).
  { subst e2. by destruct (seq _ _). }
  assert (Hld : _last_detection (set_statistics stats e2) =
                match fs with
                | [] => _last_detection (self m)
                | _ :: _ => Some (strftime DATETIME_FORMAT (dt_now env))
                end).
  { subst e2. by destruct fs. }
  split.
  - exists (seq (S (length (heap m))) (length fs)). split.
    + unfold device_state_attributes. rewrite Hvs.
      destruct (_save_file_folder _); by simplify_map_eq.
    + pose proof (fresh_block (record_of <$> fs) (heap m ++ [∅])) as Hfresh.
      rewrite length_app, length_fmap, Nat.add_1_r in Hfresh. cbn in Hfresh.
      rewrite Forall2_fmap_r in Hfresh.
      eapply Forall2_impl; [exact Hfresh|]. cbn. intros l f Hl.
      rewrite <- app_assoc in Hl. cbn in Hl.
      rewrite app_comm_cons, app_assoc. by apply lookup_app_l_Some.
  - unfold device_state_attributes. rewrite Hld.
    destruct (_save_file_folder _); destruct fs; by simplify_map_eq.
Qed.

(** On a run: one vehicle in the morning. *)
Lemma attributes_after_recognition_witness :
  device_state_attributes
    (self (process_image (answering [entry "AB12CDE"]) [] installed).2) !! "last_detection" =
  Some (AValue (PStr "2026-03-07_09-05-00")).
Proof.
  refine (proj2 (attributes_after_recognition
            (answering [entry "AB12CDE"]) [] installed
            (reading [entry "AB12CDE"]) [entry "AB12CDE"] [fields "AB12CDE"]
            eq_refl eq_refl _)).
  repeat constructor; eexists; split; reflexivity.
Defined.

(** ** What a call of [save_image] does *)

(** Only [UnidentifiedImageError] is caught: any other exception of the
    decoder leaves [save_image] as it is, without a warning and without a
    write. *)
Theorem decoder_error_leaves_save_image env image m exc :
  Image_open env image = Raise exc ->
  exc ≠ UnidentifiedImageError ->
  let r := save_image env image m in
  r.1 = Raise exc ∧
  effects_since m r.2 = [EOpen image] ∧
  files r.2 = files m ∧
  self r.2 = self m.
Proof.
  intros Hopen Hexc r. subst r.
  rewrite (save_image_decode_error _ _ _ _ Hopen) by (by destruct exc).
  cbn [fst snd self files]. by erewrite effects_since_app by reflexivity.
Qed.

(** On a run: the decoder raises [OSError] on a file cut short. *)
Lemma decoder_error_leaves_save_image_witness :
  (save_image truncated [] seen).1 = Raise OSError ∧
  files (save_image truncated [] seen).2 = files seen.
Proof.
  pose proof (decoder_error_leaves_save_image truncated [] seen OSError eq_refl)
    as (H1 & _ & H2 & _); [discriminate|].
  by split.
Defined.

(** A refused write raises at once.  If it is the first one, no file is
    written; if it is the second one, the latest file has been replaced
    all the same, and the line about the saved file is not logged. *)
Theorem refused_write_stops_save_image env image m img dir exc :
  Image_open env image = Return img ->
  _save_file_folder (self m) = Some dir ->
  let r := save_image env image m in
  let latest := latest_path dir (self m) in
  let stamped := stamped_path dir (self m) (py_str (_last_detection (self m))) in
  (Image_save env img latest = Some exc ->
   r.1 = Raise exc ∧ files r.2 = files m ∧ saved (effects_since m r.2) = []) ∧
  (Image_save env img latest = None ->
   _save_timestamped_file (self m) = true ->
   Image_save env img stamped = Some exc ->
   r.1 = Raise exc ∧
   files r.2 = <[latest := img]> (files m) ∧
   saved (effects_since m r.2) = [(latest, img)] ∧
   logged (effects_since m r.2) = []).
Proof.
  intros Hopen Hdir r latest stamped. subst r. split.
  - intros Hlatest.
    rewrite (save_image_first_write_refused _ _ _ _ _ _ Hopen Hdir Hlatest).
    cbn [fst snd files]. by erewrite effects_since_app by reflexivity.
  - intros Hlatest Hts Hstamped.
    rewrite (save_image_second_write_refused_run _ _ _ _ _ _
               Hopen Hdir Hts Hlatest Hstamped).
    cbn [fst snd files]. by erewrite effects_since_app by reflexivity.
Qed.

(** On two runs: a disk that refuses every write, and one that refuses
    the stamped file only. *)
Lemma refused_write_stops_save_image_witness :
  (save_image read_only [] seen).1 = Raise OSError ∧
  files (save_image full_disk [] seen).2 =
    <["/config/www/platerecognizer_front_latest.png" := picture]> (files seen).
Proof.
  split.
  - apply (proj1 (refused_write_stops_save_image read_only [] seen picture "/config/www"
                    OSError eq_refl eq_refl)).
    reflexivity.
  - apply (proj2 (refused_write_stops_save_image full_disk [] seen picture "/config/www"
                    OSError eq_refl eq_refl)); reflexivity.
Defined.

(** [save_image] starts by decoding the image; it never changes a field of
    the entity or an object of the heap, fires no event and sends no
    request; and the disk after it is the disk before it with the writes
    of the trace replayed. *)
Theorem save_image_touches_only_the_disk env image m :
  let r := save_image env image m in
  ∃ rest,
    effects_since m r.2 = EOpen image :: rest ∧
    (opened rest = [] ∧ fired rest = [] ∧ posted rest = [] ∧ requested rest = []) ∧
    self r.2 = self m ∧
    heap r.2 = heap m ∧
    files r.2 = replay (saved rest) (files m).
Proof.
  intros r. subst r.
  destruct (save_image_anatomy env image m)
    as (o & files' & es & -> & (Hf & Ho & Hp & Hr) & Hdisk & _).
  cbn [snd self heap files]. erewrite effects_since_app by reflexivity.
  exists es. by rewrite Hf, Ho, Hp, Hr.
Qed.

(** ** What a call of [get_statistics] does *)

(** [-] on anything but numbers raises [TypeError]. *)
Lemma py_sub_needs_numbers a b :
  as_number a = None ∨ as_number b = None -> py_sub a b = Raise TypeError.
Proof.
  unfold py_sub. intros [-> | ->]; [done|].
  by destruct (as_number a) as [[]|].
Qed.

(** A call of [get_statistics] sends exactly one request, a GET to the
    statistics URL with the entity's headers; it touches neither the heap
    nor the disk; and it logs one error exactly when the request or the
    reading of its answer fails. *)
Theorem get_statistics_sends_one_request env m :
  let r := get_statistics env m in
  let es := effects_since m r.2 in
  requested es = [(STATS_URL, _headers (self m))] ∧
  (posted es = [] ∧ fired es = [] ∧ opened es = [] ∧ saved es = []) ∧
  heap r.2 = heap m ∧ files r.2 = files m ∧
  (quota_known env (_headers (self m)) -> logged es = []) ∧
  (¬ quota_known env (_headers (self m)) ->
   logged es = [(ERROR, "platerecognizer error getting statistics: %s")]).
Proof.
  intros r es. subst r es.
  destruct (get_statistics_anatomy env m) as (stats & log & -> & Hlog).
  cbn [snd heap files]. erewrite effects_since_app by reflexivity.
  destruct Hlog as [[Hyes ->]|(Hno & _ & exc & ->)]; cbn; by repeat split.
Qed.

(** On a run: no network, one error logged. *)
Lemma get_statistics_sends_one_request_witness :
  logged (effects_since installed (get_statistics offline installed).2) =
  [(ERROR, "platerecognizer error getting statistics: %s")].
Proof.
  apply (proj2 (proj2 (proj2 (proj2 (proj2
           (get_statistics_sends_one_request offline installed)))))).
  intros (d & total & used & r & (Hget & _) & _). discriminate Hget.
Defined.

(** A quota or a usage that is not a number (a string, [null], a list, an
    object) makes the subtraction raise [TypeError]; it is caught like the
    rest, and the entity keeps the statistics it had. *)
Theorem non_numeric_quota_keeps_statistics env m d total used :
  quota env (_headers (self m)) d total used ->
  as_number total = None ∨ as_number used = None ->
  let r := get_statistics env m in
  r.1 = Return tt ∧
  self r.2 = self m ∧
  effects_since m r.2 =
    [EGet STATS_URL (_headers (self m));
     ELog ERROR "platerecognizer error getting statistics: %s" (ArgExn TypeError)].
Proof.
  intros (Hget & Htotal & usage & Husage & Hcalls) Hnan%py_sub_needs_numbers r. subst r.
  unfold get_statistics, try_except, bind, get_field, emit, eval, assign, _LOGGER, emit.
  cbn. rewrite Hget. cbn. rewrite Htotal, Husage, Hcalls, Hnan. cbn.
  unfold effects_since, with_trace. cbn.
  rewrite <- app_assoc, drop_app_length. split; [done|]. split; [|done]. by destruct m.
Qed.

(** On a run: [total_calls] is [null]. *)
Lemma non_numeric_quota_keeps_statistics_witness :
  self (get_statistics unmetered installed).2 = self installed.
Proof.
  refine (proj1 (proj2 (non_numeric_quota_keeps_statistics unmetered installed
            unmetered_plan PNone (PInt 12) _ (or_introl eq_refl)))).
  split; [reflexivity|]. split; [reflexivity|]. exists (PDict usage). split; reflexivity.
Defined.

(** ** A series of images *)

(** The fields that [__init__] sets and nothing else assigns. *)
Lemma process_image_keeps_configuration env image m :
  let e := self m in
  let e' := self (process_image env image m).2 in
  _headers e' = _headers e ∧ _camera e' = _camera e ∧ _name e' = _name e ∧
  _save_file_folder e' = _save_file_folder e ∧
  _save_timestamped_file e' = _save_timestamped_file e ∧
  _always_save_latest_jpg e' = _always_save_latest_jpg e ∧
  entity_id e' = entity_id e.
Proof.
  intros e e'. subst e e'.
  destruct (process_image_anatomy env image m)
    as (r & vs & added & log & j & k & o & stats & files' & es & Hrun & _).
  cbn zeta in Hrun. rewrite Hrun. cbn [snd self].
  pose proof (detected_entity_frame env (self m) r vs)
    as (H1 & H2 & H3 & H4 & H5 & H6 & _ & H7 & _).
  by repeat split.
Qed.

(** The requests of one call. *)
Lemma process_image_call env image m :
  ∃ es,
    trace (process_image env image m).2 = trace m ++ es ∧
    posted es = [(PLATE_READER_URL, image, _headers (self m))] ∧
    (requested es = [] ∨ requested es = [(STATS_URL, _headers (self m))]).
Proof.
  destruct (process_image_anatomy env image m)
    as (r & vs & added & log & j & k & o & stats & files' & es & Hrun
        & Hlog%error_log_is_silent & _ & _ & [_ Hp] & Hreq & _).
  cbn zeta in Hrun. rewrite Hrun. cbn [snd trace].
  eexists. split; [reflexivity|].
  destruct Hlog as (_ & Hlp & Hlr & _).
  change (posted (EPost ?u ?b ?h :: ?l)) with ((u, b, h) :: posted l).
  change (requested (EPost ?u ?b ?h :: ?l)) with (requested l).
  rewrite !posted_app, !requested_app, Hlp, Hlr, Hp, Hreq, posted_fires, requested_fires.
  split; [done|]. destruct o; auto.
Qed.

(** The requests of a series of calls, and the fields it keeps. *)
Lemma process_all_run calls : forall m,
  ∃ es,
    trace (process_all calls m) = trace m ++ es ∧
    posted es = (fun call => (PLATE_READER_URL, call.2, _headers (self m))) <$> calls ∧
    Forall (fun r => r = (STATS_URL, _headers (self m))) (requested es) ∧
    length (requested es) ≤ length calls ∧
    (_headers (self (process_all calls m)) = _headers (self m) ∧
     _camera (self (process_all calls m)) = _camera (self m) ∧
     _name (self (process_all calls m)) = _name (self m) ∧
     _save_file_folder (self (process_all calls m)) = _save_file_folder (self m) ∧
     _save_timestamped_file (self (process_all calls m)) =
       _save_timestamped_file (self m) ∧
     _always_save_latest_jpg (self (process_all calls m)) =
       _always_save_latest_jpg (self m) ∧
     entity_id (self (process_all calls m)) = entity_id (self m)).
Proof.
  induction calls as [|[env image] calls IH]; intros m.
  - exists []. rewrite app_nil_r. cbn. repeat split; done.
  - cbn [process_all fold_left fst snd].
    change (fold_left _ calls ?x) with (process_all calls x).
    destruct (process_image_call env image m) as (es1 & Ht1 & Hp1 & Hr1).
    pose proof (process_image_keeps_configuration env image m)
      as (H1 & H2 & H3 & H4 & H5 & H6 & H7).
    cbn zeta in *.
    destruct (IH (process_image env image m).2)
      as (es2 & Ht2 & Hp2 & Hr2 & Hn2 & G1 & G2 & G3 & G4 & G5 & G6 & G7).
    exists (es1 ++ es2). rewrite Ht2, Ht1, <- app_assoc.
    rewrite posted_app, requested_app, Hp1, Hp2, H1, length_app.
    rewrite H1 in Hr2. cbn [length fmap list_fmap app].
    split; [done|]. split; [done|]. split; [|split].
    + apply Forall_app. split; [|done]. destruct Hr1 as [-> | ->]; repeat constructor.
    + destruct Hr1 as [-> | ->]; cbn; lia.
    + repeat split; congruence.
Qed.

(** The configuration is for life: after the construction and any series of
    images, whatever the world answered, the entity has the token,
    camera, name, save directory and flags that the constructor stored. *)
Theorem configuration_is_for_life env api_token folder stamped always camera name m0 calls :
  let e := self (process_all calls
                   (__init__ env api_token folder stamped always camera name m0).2) in
  _headers e = {[ "Authorization" := "Token " +:+ api_token ]} ∧
  _camera e = camera ∧
  _name e = (if truthy name then py_str name
             else "platerecognizer_" +:+ object_id camera) ∧
  _save_file_folder e = folder ∧
  _save_timestamped_file e = stamped ∧
  _always_save_latest_jpg e = always ∧
  entity_id e = entity_id (self m0).
Proof.
  intros e. subst e.
  destruct (process_all_run calls
              (__init__ env api_token folder stamped always camera name m0).2)
    as (_ & _ & _ & _ & _ & -> & -> & -> & -> & -> & -> & ->).
  rewrite init_run.
  match goal with |- context [get_statistics env ?m1] =>
    destruct (get_statistics_anatomy env m1) as (stats & log & -> & _)
  end.
  done.
Qed.

(** Every request that an entity ever sends carries its token.  Over the
    construction and a series of images there is one POST per image, to the
    recognition URL, with that image, in order; and every GET goes to the
    statistics URL, one for the construction and at most one per image. *)
Theorem every_request_carries_the_token
    env api_token folder stamped always camera name m0 calls :
  let headers : gmap string string := {[ "Authorization" := "Token " +:+ api_token ]} in
  let m := process_all calls
             (__init__ env api_token folder stamped always camera name m0).2 in
  posted (effects_since m0 m) =
    (fun call => (PLATE_READER_URL, call.2, headers)) <$> calls ∧
  Forall (fun r => r = (STATS_URL, headers)) (requested (effects_since m0 m)) ∧
  1 ≤ length (requested (effects_since m0 m)) ≤ S (length calls).
Proof.
  intros headers m. subst m.
  destruct (process_all_run calls
              (__init__ env api_token folder stamped always camera name m0).2)
    as (es & Htrace & Hp & Hr & Hn & _).
  revert Htrace Hp Hr. rewrite init_run.
  match goal with |- context [get_statistics env ?m1] =>
    destruct (get_statistics_anatomy env m1) as (stats & log & -> & Hlog)
  end.
  cbn [snd self trace _headers set_statistics]. fold headers. intros Htrace Hp Hr.
  erewrite effects_since_app by (rewrite Htrace, <- app_assoc; reflexivity).
  assert (posted log = [] ∧ requested log = []) as [Hlp Hlr].
  { destruct Hlog as [[_ ->]|(_ & _ & exc & ->)]; done. }
  rewrite <- app_comm_cons.
  change (posted (EGet ?u ?h :: ?l)) with (posted l).
  change (requested (EGet ?u ?h :: ?l)) with ((u, h) :: requested l).
  rewrite !posted_app, !requested_app, Hlp, Hlr, Hp. cbn [app length].
  split; [done|]. split; [by constructor|lia].
Qed.

(** ** [setup_platform] *)

(** One construction from end to end. *)
Lemma construct_run env api_token folder stamped always camera m :
  let headers : gmap string string := {[ "Authorization" := "Token " +:+ api_token ]} in
  ∃ stats log,
    construct env api_token folder stamped always (CONF_ENTITY_ID camera) (CONF_NAME camera) m =
    (Return (built api_token folder stamped always camera (length (heap m)) stats),
     {| self := built api_token folder stamped always camera (length (heap m)) stats;
        heap := heap m ++ [∅]; files := files m;
        trace := trace m ++ EGet STATS_URL headers :: log |}) ∧
    first_statistics env headers stats ∧
    (log = [] ∨ ∃ exc, log = [ELog ERROR "platerecognizer error getting statistics: %s"
                                  (ArgExn exc)]).
Proof.
  intros headers.
  unfold construct.
  unfold bind at 1. unfold assign at 1. cbn [fst snd].
  unfold bind at 1. rewrite init_run. cbn [heap files trace self entity_id blank_entity].
  match goal with |- context [get_statistics env ?m1] => set (m1' := m1) end.
  destruct (quota_cases env headers) as [(d & total & used & r & Hq & Hsub)|Hno].
  - rewrite (get_statistics_success env m1' d total used r Hq Hsub).
    exists (<["calls_remaining" := r]> d), []. split; [reflexivity|]. split; [|by left].
    split.
    + intros d' total' used' r' Hq' Hsub'.
      destruct Hq as (Hg & Ht & u & Hu & Hc), Hq' as (Hg' & Ht' & u' & Hu' & Hc').
      rewrite Hg in Hg'. injection Hg' as <-.
      rewrite Ht in Ht'. injection Ht' as <-.
      rewrite Hu in Hu'. injection Hu' as <-.
      rewrite Hc in Hc'. injection Hc' as <-.
      rewrite Hsub in Hsub'. by injection Hsub' as <-.
    + intros Hno. destruct Hno. by exists d, total, used, r.
  - destruct (get_statistics_failure env m1' Hno) as [exc ->].
    exists ∅, [ELog ERROR "platerecognizer error getting statistics: %s" (ArgExn exc)].
    split; [reflexivity|]. split; [|right; by exists exc].
    split; [|done]. intros d total used r Hq Hsub. destruct Hno. by exists d, total, used, r.
Qed.

(** The loop of [setup_platform] from the [i]-th camera on. *)
Lemma setup_entities_run world config folder cameras : forall i m,
  let headers : gmap string string :=
    {[ "Authorization" := "Token " +:+ conf_api_token config ]} in
  ∃ entities es last,
    setup_entities world i config folder cameras m =
      (Return entities,
       {| self := last; heap := heap m ++ replicate (length cameras) ∅;
          files := files m; trace := trace m ++ es |}) ∧
    requested es = replicate (length cameras) (STATS_URL, headers) ∧
    (posted es = [] ∧ fired es = [] ∧ opened es = [] ∧ saved es = []) ∧
    length entities = length cameras ∧
    ∀ k camera, cameras !! k = Some camera ->
      ∃ stats,
        entities !! k =
          Some (built (conf_api_token config) folder (conf_save_timestamped_file config)
                  (conf_always_save_latest_jpg config) camera (length (heap m) + k) stats) ∧
        first_statistics (world (i + k)) headers stats.
Proof.
  induction cameras as [|camera rest IH]; intros i m headers.
  - exists [], [], (self m). cbn. rewrite !app_nil_r. destruct m. repeat split; try done.
  - cbn [setup_entities]. unfold bind at 1.
    destruct (construct_run (world i) (conf_api_token config) folder
                (conf_save_timestamped_file config) (conf_always_save_latest_jpg config)
                camera m) as (stats & log & -> & Hstats & Hlog).
    cbn zeta in Hstats. fold headers in Hstats. fold headers.
    match goal with |- context [bind (setup_entities world (S i) config folder rest) _ ?m1] =>
      set (m1' := m1) end.
    destruct (IH (S i) m1') as (entities & es & last & Hrun & Hreq
                               & (Hp & Hf & Ho & Hs) & Hlen & Hall).
    unfold bind at 1. rewrite Hrun.
    exists (built (conf_api_token config) folder (conf_save_timestamped_file config)
              (conf_always_save_latest_jpg config) camera (length (heap m)) stats :: entities),
           (EGet STATS_URL headers :: log ++ es), last.
    cbn [ret fst snd]. subst m1'. cbn [heap files trace].
    rewrite <- !app_assoc. cbn [app replicate length].
    assert (posted log = [] ∧ requested log = [] ∧ fired log = [] ∧ opened log = [] ∧
            saved log = []) as (Hlp & Hlr & Hlf & Hlo & Hls).
    { destruct Hlog as [->|[exc ->]]; done. }
    split; [done|].
    split.
    { change (requested (EGet ?u ?h :: ?l)) with ((u, h) :: requested l).
      by rewrite requested_app, Hlr, Hreq. }
    split.
    { change (posted (EGet ?u ?h :: ?l)) with (posted l).
      change (fired (EGet ?u ?h :: ?l)) with (fired l).
      change (opened (EGet ?u ?h :: ?l)) with (opened l).
      change (saved (EGet ?u ?h :: ?l)) with (saved l).
      rewrite posted_app, fired_app, saved_app. unfold opened in *. rewrite omap_app.
      by rewrite Hlp, Hlf, Hls, Hlo, Hp, Hf, Ho, Hs. }
    split; [by rewrite Hlen|].
    intros [|k] camera' Hk.
    + injection Hk as <-. exists stats. rewrite !Nat.add_0_r. by split.
    + destruct (Hall k camera' Hk) as (stats' & Hk' & Hs').
      exists stats'. rewrite lookup_cons. cbn [heap] in Hk'.
      rewrite length_app in Hk'. cbn [length] in Hk'.
      replace (length (heap m) + S k) with (length (heap m) + 1 + k) by lia.
      replace (i + S k) with (S i + k) by lia. by split.
Qed.

(** [setup_platform] from end to end. *)
Lemma setup_platform_run world config m :
  let folder := if truthy (conf_save_file_folder config)
                then conf_save_file_folder config else None in
  let headers : gmap string string :=
    {[ "Authorization" := "Token " +:+ conf_api_token config ]} in
  ∃ entities es last,
    setup_platform world config m =
      (Return entities,
       {| self := last; heap := heap m ++ replicate (length (conf_source config)) ∅;
          files := files m; trace := trace m ++ es |}) ∧
    requested es = replicate (length (conf_source config)) (STATS_URL, headers) ∧
    (posted es = [] ∧ fired es = [] ∧ opened es = [] ∧ saved es = []) ∧
    length entities = length (conf_source config) ∧
    ∀ k camera, conf_source config !! k = Some camera ->
      ∃ stats,
        entities !! k =
          Some (built (conf_api_token config) folder (conf_save_timestamped_file config)
                  (conf_always_save_latest_jpg config) camera (length (heap m) + k) stats) ∧
        first_statistics (world k) headers stats.
Proof.
  intros folder headers. unfold setup_platform. fold folder.
  apply (setup_entities_run world config folder (conf_source config) 0 m).
Qed.

(** [setup_platform] never raises, whatever the service answers, and hands
    over one entity per configured camera, in the order of the
    configuration.  Each entity has the token, flags and save directory of
    the platform, the camera of its entry and that entry's name, or the
    default name when the entry has none; none has a state or a detection
    time yet. *)
Theorem setup_platform_builds_one_entity_per_camera world config m :
  ∃ entities,
    (setup_platform world config m).1 = Return entities ∧
    length entities = length (conf_source config) ∧
    ∀ k camera, conf_source config !! k = Some camera ->
      ∃ e, entities !! k = Some e ∧
        _camera e = CONF_ENTITY_ID camera ∧
        _name e = (if truthy (CONF_NAME camera) then py_str (CONF_NAME camera)
                   else "platerecognizer_" +:+ object_id (CONF_ENTITY_ID camera)) ∧
        _headers e = {[ "Authorization" := "Token " +:+ conf_api_token config ]} ∧
        _save_file_folder e = (if truthy (conf_save_file_folder config)
                               then conf_save_file_folder config else None) ∧
        _save_timestamped_file e = conf_save_timestamped_file config ∧
        _always_save_latest_jpg e = conf_always_save_latest_jpg config ∧
        _state e = None ∧ _last_detection e = None.
Proof.
  destruct (setup_platform_run world config m)
    as (entities & es & last & -> & _ & _ & Hlen & Hall).
  exists entities. split; [done|]. split; [done|].
  intros k camera Hk. destruct (Hall k camera Hk) as (stats & -> & _).
  eexists. split; [reflexivity|]. done.
Qed.

(** On a run: two cameras, the second one named. *)
Lemma setup_platform_builds_one_entity_per_camera_witness :
  ∃ entities e,
    (setup_platform booting household blank).1 = Return entities ∧
    entities !! 1 = Some e ∧ _camera e = back ∧ _name e = "drive".
Proof.
  destruct (setup_platform_builds_one_entity_per_camera booting household blank)
    as (entities & Hrun & _ & Hall).
  destruct (Hall 1 back_camera eq_refl) as (e & He & Hcamera & Hname & _).
  by exists entities, e.
Defined.

(** Setting the platform up costs one statistics request per camera, each
    with the configured token, and nothing else: no image is posted, no
    event is fired, no file is opened or written, and the objects that
    existed before are what they were. *)
Theorem setup_platform_requests_statistics_only world config m :
  let m' := (setup_platform world config m).2 in
  requested (effects_since m m') =
    replicate (length (conf_source config))
      (STATS_URL, {[ "Authorization" := "Token " +:+ conf_api_token config ]}) ∧
  posted (effects_since m m') = [] ∧
  fired (effects_since m m') = [] ∧
  opened (effects_since m m') = [] ∧
  saved (effects_since m m') = [] ∧
  files m' = files m ∧
  ∀ l d, heap m !! l = Some d -> heap m' !! l = Some d.
Proof.
  intros m'. subst m'.
  destruct (setup_platform_run world config m)
    as (entities & es & last & -> & Hreq & (Hp & Hf & Ho & Hs) & _).
  cbn [snd heap files]. erewrite effects_since_app by reflexivity.
  repeat split; try done.
  intros l d Hl. by apply lookup_app_l_Some.
Qed.

(** On a run: the placeholder of an earlier entity stays as it is. *)
Lemma setup_platform_requests_statistics_only_witness :
  heap (setup_platform booting household seen).2 !! 0 = Some ∅.
Proof.
  apply (proj2 (proj2 (proj2 (proj2 (proj2 (proj2
           (setup_platform_requests_statistics_only booting household seen))))))).
  reflexivity.
Defined.

(** Each entity gets the statistics of its own request.  One whose request
    fails, or whose answer lacks the quota, starts with empty statistics,
    and this neither stops the set-up nor touches the other entities: one
    whose request gives the quota has that answer with [calls_remaining]
    added. *)
Theorem setup_platform_statistics_are_per_entity world config m k camera :
  conf_source config !! k = Some camera ->
  let headers : gmap string string :=
    {[ "Authorization" := "Token " +:+ conf_api_token config ]} in
  ∃ entities e,
    (setup_platform world config m).1 = Return entities ∧
    entities !! k = Some e ∧
    (¬ quota_known (world k) headers -> _statistics e = ∅) ∧
    (∀ d total used remaining,
       quota (world k) headers d total used ->
       py_sub total used = Return remaining ->
       _statistics e = <["calls_remaining" := remaining]> d).
Proof.
  intros Hk headers.
  destruct (setup_platform_run world config m)
    as (entities & es & last & -> & _ & _ & _ & Hall).
  destruct (Hall k camera Hk) as (stats & He & Hsome & Hnone).
  exists entities. eexists. split; [done|]. split; [exact He|].
  split; [exact Hnone|exact Hsome].
Qed.

(** On a run: the first request fails, the second one succeeds. *)
Lemma setup_platform_statistics_are_per_entity_witness :
  ∃ entities first second,
    (setup_platform booting household blank).1 = Return entities ∧
    entities !! 0 = Some first ∧ _statistics first = ∅ ∧
    entities !! 1 = Some second ∧
    _statistics second = <["calls_remaining" := PInt 2488]> plan.
Proof.
  destruct (setup_platform_statistics_are_per_entity booting household blank 0 front_camera
              eq_refl) as (entities & first & Hrun & Hfirst & Hnone & _).
  destruct (setup_platform_statistics_are_per_entity booting household blank 1 back_camera
              eq_refl) as (entities' & second & Hrun' & Hsecond & _ & Hsome).
  rewrite Hrun in Hrun'. injection Hrun' as <-.
  exists entities, first, second.
  split; [done|]. split; [done|]. split; [|split; [done|]].
  - apply Hnone. intros (d & total & used & r & (Hget & _) & _). discriminate Hget.
  - apply (Hsome plan (PInt 2500) (PInt 12) (PInt 2488)); [|reflexivity].
    split; [reflexivity|]. split; [reflexivity|]. exists (PDict usage). split; reflexivity.
Defined.

(** The entities of one set-up share no vehicle record.  Each starts with
    its own list of one record, a new empty object, so what one entity later
    does to its record cannot show in another. *)
Theorem setup_platform_entities_share_no_record world config m entities j k ej ek :
  (setup_platform world config m).1 = Return entities ->
  entities !! j = Some ej ->
  entities !! k = Some ek ->
  j ≠ k ->
  let m' := (setup_platform world config m).2 in
  ∃ lj lk,
    _vehicles ej = [lj] ∧ _vehicles ek = [lk] ∧ lj ≠ lk ∧
    heap m !! lj = None ∧ heap m !! lk = None ∧
    heap m' !! lj = Some ∅ ∧ heap m' !! lk = Some ∅.
Proof.
  intros Hrun Hj Hk Hjk m'. subst m'. revert Hrun.
  destruct (setup_platform_run world config m)
    as (entities' & es & last & -> & _ & _ & Hlen & Hall).
  cbn [fst snd heap]. intros [= ->].
  assert (Hin : ∀ i e, entities !! i = Some e ->
            _vehicles e = [length (heap m) + i] ∧ i < length (conf_source config)).
  { intros i e Hi.
    assert (Hlt : i < length (conf_source config)).
    { rewrite <- Hlen. apply lookup_lt_is_Some_1. by exists e. }
    destruct (lookup_lt_is_Some_2 _ _ Hlt) as [camera Hc].
    destruct (Hall i camera Hc) as (stats & He & _).
    rewrite Hi in He. injection He as ->. done. }
  destruct (Hin j ej Hj) as [Hvj Hltj], (Hin k ek Hk) as [Hvk Hltk].
  exists (length (heap m) + j), (length (heap m) + k).
  split; [done|]. split; [done|]. split; [lia|].
  split; [apply lookup_ge_None_2; lia|]. split; [apply lookup_ge_None_2; lia|].
  rewrite !lookup_app_r by lia.
  replace (length (heap m) + j - length (heap m)) with j by lia.
  replace (length (heap m) + k - length (heap m)) with k by lia.
  split; by apply lookup_replicate_2.
Qed.

(** On a run: two cameras, two placeholders. *)
Lemma setup_platform_entities_share_no_record_witness :
  ∃ entities first second,
    (setup_platform booting household blank).1 = Return entities ∧
    entities !! 0 = Some first ∧ entities !! 1 = Some second ∧
    _vehicles first = [0] ∧ _vehicles second = [1].
Proof.
  destruct (setup_platform_run booting household blank)
    as (entities & es & last & Hrun & _ & _ & Hlen & _).
  apply (f_equal fst) in Hrun. cbn [fst] in Hrun.
  destruct (lookup_lt_is_Some_2 entities 0) as [first Hfirst]; [rewrite Hlen; cbn; lia|].
  destruct (lookup_lt_is_Some_2 entities 1) as [second Hsecond]; [rewrite Hlen; cbn; lia|].
  destruct (setup_platform_entities_share_no_record booting household blank entities 0 1
              first second Hrun Hfirst Hsecond) as (lj & lk & Hj & Hk & _); [lia|].
  exists entities, first, second. split; [done|]. split; [done|]. split; [done|].
  revert Hrun Hfirst Hsecond Hj Hk. vm_compute.
  intros [= <-] [= <-] [= <-]. done.
Defined.

(** ** Time stamps in file names *)







